(** * Resoto core: configuration handler, entity store access and core-config
      restart logic

    A shallow embedding of
    - [resotocore/util.py]: [deep_merge], [set_future_result], [restart_service];
    - [resotocore/db/entitydb.py]: [ArangoEntityDb.get], [ArangoEntityDb.update];
    - [resotocore/config/config_handler_service.py]: [ConfigHandlerService];
    - [resotocore/config/core_config_handler.py]: [CoreConfigHandler.__handle_events];
    - [resotocore/__main__.py]: the restart loop of [run].

    Coroutines are embedded sequentially: every [await] is one atomic step of
    a state-and-exception monad. What an awaited external party answers (the
    database driver, the worker that completes a task future) is a parameter
    of the model. *)

From Stdlib Require Import ZArith Bool List Ascii String Lia.
From stdpp Require Import gmap strings list.

#[local] Set Warnings "-register-all".
#[local] Open Scope string_scope.

(** ** JSON values as Python sees them *)

Module Json.

(** [JsonElement]: [None], [bool], [int], [str], [list] and [dict]. A Python
    [dict] keeps its keys in insertion order, which [config_yaml] walks, so an
    object is an association list (each key at most once, see [wf]). JSON
    numbers are the integral ones; non-integral numbers are left out of the
    model. *)
Inductive json : Type :=
  | JNull
  | JBool (b : bool)
  | JInt (z : Z)
  | JStr (s : string)
  | JList (l : list json)
  | JDict (d : list (string * json)).

(** [Json = Dict[str, Any]] *)
Definition Json : Type := list (string * json).

Section json_induction.
Variable P : json -> Prop.
Hypothesis HNull : P JNull.
Hypothesis HBool : forall b, P (JBool b).
Hypothesis HInt : forall z, P (JInt z).
Hypothesis HStr : forall s, P (JStr s).
Hypothesis HList : forall l, Forall P l -> P (JList l).
Hypothesis HDict : forall d, Forall (fun kv => P (snd kv)) d -> P (JDict d).

Fixpoint json_nested_ind (j : json) : P j :=
  match j with
  | JNull => HNull
  | JBool b => HBool b
  | JInt z => HInt z
  | JStr s => HStr s
  | JList l =>
      HList l ((fix go (l : list json) : Forall P l :=
                  match l with
                  | [] => @List.Forall_nil _ P
                  | x :: l' => @List.Forall_cons _ P x l' (json_nested_ind x) (go l')
                  end) l)
  | JDict d =>
      HDict d ((fix go (d : Json) : Forall (fun kv => P (snd kv)) d :=
                  match d with
                  | [] => @List.Forall_nil _ _
                  | kv :: d' =>
                      @List.Forall_cons _ (fun kv => P (snd kv)) kv d'
                        (json_nested_ind (snd kv)) (go d')
                  end) d)
  end.
End json_induction.

(** Python truthiness, as used by [if x], [x or y] and [not x]. *)
Definition truthy (j : json) : bool :=
  match j with
  | JNull => false
  | JBool b => b
  | JInt z => negb (Z.eqb z 0)
  | JStr s => negb (String.eqb s EmptyString)
  | JList l => match l with [] => false | _ :: _ => true end
  | JDict d => match d with [] => false | _ :: _ => true end
  end.

(** [isinstance(x, dict)] *)
Definition is_dict (j : json) : bool :=
  match j with JDict _ => true | _ => false end.

(** [d[k]] when present *)
Fixpoint dict_lookup (d : Json) (k : string) : option json :=
  match d with
  | [] => None
  | (k', v) :: d' => if String.eqb k k' then Some v else dict_lookup d' k
  end.

(** [d.get(k)]: [None] when the key is absent *)
Definition dict_get (d : Json) (k : string) : json :=
  match dict_lookup d k with Some v => v | None => JNull end.

(** [k in d] *)
Definition dict_contains (d : Json) (k : string) : bool :=
  match dict_lookup d k with Some _ => true | None => false end.

(** [d.keys()], in insertion order *)
Definition keys (d : Json) : list string := map fst d.

(** [d[k] = v]: a present key keeps its place, a new key goes last *)
Fixpoint dict_set (d : Json) (k : string) (v : json) : Json :=
  match d with
  | [] => [(k, v)]
  | (k', v') :: d' =>
      if String.eqb k k' then (k', v) :: d' else (k', v') :: dict_set d' k v
  end.

(** [{**left, **right}] *)
Definition dict_spread (left right : Json) : Json :=
  fold_left (fun acc kv => dict_set acc (fst kv) (snd kv)) right left.

Definition mem (k : string) (ks : list string) : bool :=
  existsb (String.eqb k) ks.

Fixpoint nodup_keys (ks : list string) : bool :=
  match ks with
  | [] => true
  | k :: ks' => negb (mem k ks') && nodup_keys ks'
  end.

(** The values a Python program can hold: no object repeats a key. *)
Fixpoint wf (j : json) : bool :=
  match j with
  | JList l => forallb wf l
  | JDict d => nodup_keys (map fst d) && forallb (fun kv => wf (snd kv)) d
  | _ => true
  end.

(** Python's [==] on JSON values: [True == 1] and [False == 0] hold, lists
    are compared position by position, dicts by size and by key, whatever
    the order of the keys. *)
Fixpoint py_eq (a b : json) {struct a} : bool :=
  match a, b with
  | JNull, JNull => true
  | JBool x, JBool y => Bool.eqb x y
  | JBool x, JInt y => Z.eqb (if x then 1 else 0) y
  | JInt x, JBool y => Z.eqb x (if y then 1 else 0)
  | JInt x, JInt y => Z.eqb x y
  | JStr x, JStr y => String.eqb x y
  | JList xs, JList ys =>
      (fix go (xs ys : list json) {struct xs} : bool :=
         match xs, ys with
         | [], [] => true
         | x :: xs', y :: ys' => py_eq x y && go xs' ys'
         | _, _ => false
         end) xs ys
  | JDict xs, JDict ys =>
      Nat.eqb (length xs) (length ys) &&
      (fix go (xs : Json) {struct xs} : bool :=
         match xs with
         | [] => true
         | kv :: xs' =>
             match dict_lookup ys (fst kv) with
             | Some w => py_eq (snd kv) w
             | None => false
             end && go xs'
         end) xs
  | _, _ => false
  end.

(** [a != b] *)
Definition py_ne (a b : json) : bool := negb (py_eq a b).

End Json.
Export Json.

(** ** Exceptions and awaited results *)

Module Exn.

(** The exceptions the embedded code raises, catches or passes on.
    [OptimisticLockingFailed] and [RestartService] come from
    [resotocore/error.py], the document errors from the database driver;
    neither is part of the sources, and each carries here what the code
    gives it or reads from it. *)
Inductive exn : Type :=
  | Exception_ (msg : string)
      (* any other subclass of [Exception] *)
  | BaseException_ (msg : string)
      (* [BaseException] that is no [Exception]: [CancelledError], [SystemExit] *)
  | AttributeError (msg : string) (cause : exn)
  | DocumentRevisionError (msg : string)
  | DocumentUpdateError (error_code : Z) (msg : string)
  | DocumentInsertError (error_code : Z) (msg : string)
  | OptimisticLockingFailed (key : string) (cause : exn)
  | InvalidStateError (msg : string)
  | RestartService (reason : string).

(** [isinstance(e, Exception)]. Modelled from the spec: [RestartService] is
    escalated from the listener task to the supervisor, as an exit of the
    process is, so it is taken to be no [Exception]. *)
Definition is_Exception (e : exn) : bool :=
  match e with
  | BaseException_ _ | RestartService _ => false
  | _ => true
  end.

(** [str(e)] *)
Definition str (e : exn) : string :=
  match e with
  | Exception_ m | BaseException_ m | AttributeError m _
  | DocumentRevisionError m | DocumentUpdateError _ m
  | DocumentInsertError _ m | InvalidStateError m => m
  | OptimisticLockingFailed k _ => k
  | RestartService r => r
  end.

Inductive outcome (A : Type) : Type :=
  | Ok (a : A)
  | Raise (e : exn).
Arguments Ok {A} a.
Arguments Raise {A} e.

(** A coroutine over state [S]: it returns or raises, and leaves a state. *)
Definition M (S A : Type) : Type := S -> outcome A * S.

Definition ret {S A} (a : A) : M S A := fun s => (Ok a, s).

Definition raise {S A} (e : exn) : M S A := fun s => (Raise e, s).

Definition bind {S A B} (m : M S A) (k : A -> M S B) : M S B :=
  fun s =>
    match m s with
    | (Ok a, s') => k a s'
    | (Raise e, s') => (Raise e, s')
    end.

(** [try: m  except ... as ex: handler(ex)] *)
Definition try_except {S A} (m : M S A) (handler : exn -> M S A) : M S A :=
  fun s =>
    match m s with
    | (Ok a, s') => (Ok a, s')
    | (Raise e, s') => handler e s'
    end.

(** a read of the state *)
Definition gets {S A} (f : S -> A) : M S A := fun s => (Ok (f s), s).

(** a write of the state *)
Definition modify {S} (f : S -> S) : M S unit := fun s => (Ok tt, f s).

End Exn.
Export Exn.

Declare Scope coro_scope.
Delimit Scope coro_scope with coro.
Notation "'let*' x ':=' m 'in' k" := (bind m (fun x => k))
  (at level 10, x name, m at level 100, k at level 200) : coro_scope.
Notation "m1 ';;' m2" := (bind m1 (fun _ => m2))
  (at level 100, m2 at level 200, right associativity) : coro_scope.
#[local] Open Scope coro_scope.

(** ** resotocore/util.py *)

Module Util.

(** [set(left.keys()).union(right.keys())]. Python leaves the iteration
    order of a set open; the model lists the keys of [left], then the new
    keys of [right]. Results of [deep_merge] are compared with [py_eq] or key
    by key, which do not look at the order. *)
Definition union_keys (left right : Json) : list string :=
  keys left ++ List.filter (fun k => negb (mem k (keys left))) (keys right).

Definition as_dict (j : json) : Json :=
  match j with JDict d => d | _ => [] end.

(** The body of the inner [merge(key)] of [deep_merge], on the two values
    [left.get(key)] and [right.get(key)]; the recursion into [deep_merge]
    is unfolded in place so that it descends into [right_value]. [merge_at]
    reads [right.get(key)] off the entries of [right]. *)
Fixpoint merge_values (left_value right_value : json) {struct right_value} : json :=
  match right_value with
  | JDict rd =>
      let left := as_dict left_value in
      let fix merge_at (rs : Json) (key : string) {struct rs} : json :=
        match rs with
        | [] => dict_get left key
        | kv :: rs' =>
            if String.eqb key (fst kv)
            then merge_values (dict_get left key) (snd kv)
            else merge_at rs' key
        end in
      JDict (map (fun k => (k, merge_at rd k)) (union_keys left rd))
  | _ => if truthy right_value then right_value else left_value
  end.

(** [merge_at] of [merge_values], on its own *)
Definition merge_at (left : Json) : Json -> string -> json :=
  fix merge_at (rs : Json) (key : string) {struct rs} : json :=
    match rs with
    | [] => dict_get left key
    | kv :: rs' =>
        if String.eqb key (fst kv)
        then merge_values (dict_get left key) (snd kv)
        else merge_at rs' key
    end.

(** [deep_merge(left, right)] *)
Definition deep_merge (left right : Json) : Json :=
  as_dict (merge_values (JDict left) (JDict right)).

(** [merge(key)] as the source writes it; [deep_merge_unfold] shows that
    [deep_merge] is the comprehension over it. *)
Definition merge (left right : Json) (key : string) : json :=
  let left_value := dict_get left key in
  let right_value := dict_get right key in
  match right_value with
  | JDict rd =>
      let left_value := if is_dict left_value then left_value else JDict [] in
      JDict (deep_merge (as_dict left_value) rd)
  | _ => if truthy right_value then right_value else left_value
  end.

(** What is handed to or held by a future: a value or an exception object. *)
Inductive pyobj : Type :=
  | PJson (j : json)
  | PExn (e : exn).

(** [asyncio.Future] *)
Inductive Future : Type :=
  | Pending
  | Finished (result : pyobj)
  | Failed (exception : exn)
  | Cancelled.

(** [future.done()] *)
Definition done (f : Future) : bool :=
  match f with Pending => false | _ => true end.

(** [future.set_result(result)] *)
Definition set_result (result : pyobj) : M Future unit :=
  fun f =>
    match f with
    | Pending => (Ok tt, Finished result)
    | _ => (Raise (InvalidStateError "invalid state"), f)
    end.

(** [future.set_exception(exception)] *)
Definition set_exception (exception : exn) : M Future unit :=
  fun f =>
    match f with
    | Pending => (Ok tt, Failed exception)
    | _ => (Raise (InvalidStateError "invalid state"), f)
    end.

(** [set_future_result(future, result)] *)
Definition set_future_result (result : pyobj) : M Future unit :=
  let* is_done := gets done in
  if negb is_done then
    match result with
    | PExn e => if is_Exception e then set_exception e else set_result result
    | PJson _ => set_result result
    end
  else ret tt.

(** a series of attempts to complete one future, in order *)
Fixpoint set_future_results (results : list pyobj) : M Future unit :=
  match results with
  | [] => ret tt
  | result :: later => (set_future_result result ;; set_future_results later)
  end.

(** [await future] once the future is done; a pending future has nothing to
    give yet. *)
Definition await_future (f : Future) : option (outcome pyobj) :=
  match f with
  | Pending => None
  | Finished r => Some (Ok r)
  | Failed e => Some (Raise e)
  | Cancelled => Some (Raise (BaseException_ "CancelledError"))
  end.

(** [restart_service(reason)] *)
Definition restart_service {S} (reason : string) : M S unit :=
  raise (RestartService reason).

End Util.
Export Util.

(** ** resotocore/db/entitydb.py *)

Module EntityDbs.

(** The database driver behind the entity stores ([AsyncArangoDB]), over a
    database state [S]. Reads are taken not to fail. *)
Record AsyncArangoDB (S : Type) : Type := {
  db_get : string -> string -> S -> option Json;
  db_all : string -> S -> list Json;
  db_update : string -> Json -> M S Json;   (* called with [merge=False] *)
  db_insert : string -> Json -> M S Json;
}.
Arguments db_get {S} _ _ _ _.
Arguments db_all {S} _ _ _.
Arguments db_update {S} _ _ _ _.
Arguments db_insert {S} _ _ _ _.

(** What [ArangoEntityDb] needs of its element type [T]: [to_js], [from_js]
    and, when [T] has a [revision] attribute, the way to replace it. *)
Class Entity (T : Type) : Type := {
  to_js : T -> Json;
  from_js : Json -> T;
  with_revision : option (T -> json -> T);
}.

(** [class EntityDb(ABC, Generic[T])] *)
Record EntityDb (S T : Type) : Type := {
  get : string -> S -> option T;
  all : S -> list T;
  update : T -> M S T;
}.
Arguments get {S T} _ _ _.
Arguments all {S T} _ _.
Arguments update {S T} _ _ _.

Module ArangoEntityDb.
Section ArangoEntityDb.
Context {S T : Type} `{Entity T}.
Variable db : AsyncArangoDB S.
Variable collection_name : string.
Variable key_of : T -> string.

(** [to_doc] *)
Definition to_doc (elem : T) : Json :=
  let js := to_js elem in
  dict_set js "_key" (JStr (key_of elem)).

(** [get] *)
Definition get (key : string) (s : S) : option T :=
  match db_get db collection_name key s with
  | Some result => if truthy (JDict result) then Some (from_js result) else None
  | None => None
  end.

(** [all]; documents that do not parse are skipped by the source, here
    [from_js] is total. *)
Definition all (s : S) : list T :=
  map from_js (db_all db collection_name s).

(** The end of [update]: the [_rev] of the driver's answer becomes the
    revision of [t], when [t] has a revision at all. *)
Definition take_revision (t : T) (result : Json) : T :=
  match with_revision with
  | Some replace_revision =>
      if dict_contains result "_rev"
      then replace_revision t (dict_get result "_rev")
      else t
  | None => t
  end.

(** [update] *)
Definition update (t : T) : M S T :=
  let doc := to_doc t in
  let* result :=
    try_except (db_update db collection_name doc)
      (fun ex =>
         match ex with
         | DocumentRevisionError _ => raise (OptimisticLockingFailed (key_of t) ex)
         | DocumentUpdateError error_code _ =>
             if Z.eqb error_code 1202  (* document not found *)
             then db_insert db collection_name doc
             else raise ex
         | _ => raise ex
         end) in
  ret (take_revision t result).

Definition entity_db : EntityDb S T :=
  {| EntityDbs.get := get; EntityDbs.all := all; EntityDbs.update := update |}.

End ArangoEntityDb.
End ArangoEntityDb.

End EntityDbs.
Export EntityDbs.

(** ** resotocore/config/config_handler_service.py *)

Module ConfigEntity.
(** Modelled from the spec: [ConfigEntity] is declared in
    [resotocore/config/__init__.py], which is not part of the sources. A
    config entity is [(id, body, revision)]; the handler reads them as
    [id], [config] and [revision] and builds
    [ConfigEntity(id, config, revision)]. *)
Record t : Type := mk { id : string; config : Json; revision : option string }.
End ConfigEntity.

Module ConfigValidation.
(** Modelled from the spec: [ConfigValidation] is declared in
    [resotocore/config/__init__.py], which is not part of the sources. A
    config validation is [(id, external_validation)]. *)
Record t : Type := mk { id : string; external_validation : bool }.
End ConfigValidation.

Module ConfigHandler.

(** Modelled from the spec: [Kind], [ComplexKind] and [Model] are declared
    in [resotocore/model/model.py], which is not part of the sources. Of a
    kind the handler uses [check_valid(value)], which returns the coerced
    value or [None], or raises on an invalid value, and, for a complex kind
    only, the structured emitter [create_yaml(value, initial_level)]. *)
Record Kind : Type := {
  fqn : string;
  check_valid : json -> outcome json;
  create_yaml : option (json -> nat -> string);
}.

(** [Model]: the kinds by name, read with [key in model], [model[key]] and
    [model.get(key)] *)
Definition Model : Type := gmap string Kind.

(** Modelled from the spec: [CoreMessage] and [Event] are declared in
    [resotocore/message_bus.py], which is not part of the sources. The bus
    carries events of a type with a JSON payload; the handler emits
    [ConfigUpdated(id, revision)] and [ConfigDeleted(id)]. *)
Inductive CoreMessage : Type :=
  | ConfigUpdated
  | ConfigDeleted.

Definition CoreMessage_eqb (a b : CoreMessage) : bool :=
  match a, b with
  | ConfigUpdated, ConfigUpdated | ConfigDeleted, ConfigDeleted => true
  | _, _ => false
  end.

(** an event on the bus: its type and its payload, read as [event.data] *)
Record Event : Type := { message_type : CoreMessage; data : Json }.

(** [timedelta], in seconds *)
Record timedelta : Type := { seconds : Z }.

Module WorkerTaskName.
(** Modelled from the spec: [WorkerTaskName] lives in
    [resotocore/worker_task_queue.py], which is not part of the sources; the
    task that validates a config is named [validate_config]. *)
Definition validate_config : string := "validate_config".
End WorkerTaskName.

(** Modelled from the spec: [WorkerTask] is declared in
    [resotocore/worker_task_queue.py], which is not part of the sources. A
    worker task is [(id, name, attrs, payload, result_future, timeout)], in
    the order of the constructor call in [acknowledge_config_change]; the
    payload is read as [task.data] by the validator of the core config,
    whose filter matches on the attributes. The result future is the one
    the caller awaits; how it completes is [task_result] below. *)
Record WorkerTask : Type := {
  task_id : string;
  name : string;
  attrs : list (string * string);
  task_data : Json;
  timeout : timedelta;
}.

(** The state the handler works on: the database behind its three entity
    stores, the events emitted on the message bus and the tasks handed to
    the worker task queue (oldest first), and the number of ids drawn. *)
Record World (S : Type) : Type := {
  db : S;
  message_bus : list Event;
  task_queue : list WorkerTask;
  uuid_count : nat;
}.
Arguments db {S} _.
Arguments message_bus {S} _.
Arguments task_queue {S} _.
Arguments uuid_count {S} _.

(** [ConfigHandlerService]: the three entity stores it is built with, and
    the answers of its surroundings: [uuid_str n] is the n-th id drawn,
    [task_result task] is what awaiting the callback future of [task] gives
    once the queue has completed it, [from_kinds] is [Model.from_kinds],
    [yaml_dump d] is [yaml.dump(d, sort_keys=False)]. *)
Record ConfigHandlerService (S : Type) : Type := {
  cfg_db : EntityDb S ConfigEntity.t;
  validation_db : EntityDb S ConfigValidation.t;
  model_db : EntityDb S Kind;
  uuid_str : nat -> string;
  task_result : WorkerTask -> outcome pyobj;
  from_kinds : list Kind -> Model;
  yaml_dump : Json -> string;
}.
Arguments cfg_db {S} _.
Arguments validation_db {S} _.
Arguments model_db {S} _.
Arguments uuid_str {S} _ _.
Arguments task_result {S} _ _.
Arguments from_kinds {S} _ _.
Arguments yaml_dump {S} _ _.

Section ConfigHandlerService.
Context {S : Type}.
Variable self : ConfigHandlerService S.

(** the world with another database state *)
Definition set_db (s : S) (w : World S) : World S :=
  {| db := s; message_bus := message_bus w;
     task_queue := task_queue w; uuid_count := uuid_count w |}.

(** the world with one more event on the bus *)
Definition push_event (e : Event) (w : World S) : World S :=
  {| db := db w; message_bus := message_bus w ++ [e];
     task_queue := task_queue w; uuid_count := uuid_count w |}.

(** the world with one more task in the queue *)
Definition push_task (task : WorkerTask) (w : World S) : World S :=
  {| db := db w; message_bus := message_bus w;
     task_queue := task_queue w ++ [task]; uuid_count := uuid_count w |}.

(** the world with one more id drawn *)
Definition next_uuid (w : World S) : World S :=
  {| db := db w; message_bus := message_bus w;
     task_queue := task_queue w; uuid_count := Datatypes.S (uuid_count w) |}.

(** an awaited operation of the database *)
Definition on_db {A} (m : M S A) : M (World S) A :=
  fun w => match m (db w) with (r, s') => (r, set_db s' w) end.

(** [message_bus.emit_event(message_type, data)]: the event is on the bus *)
Definition emit_event (message_type : CoreMessage) (data : Json) : M (World S) unit :=
  modify (push_event {| message_type := message_type; data := data |}).

(** [task_queue.add_task(task)]: the task is with the queue, which returns
    at once *)
Definition add_task (task : WorkerTask) : M (World S) unit :=
  modify (push_task task).

(** [uuid_str()] *)
Definition draw_uuid : M (World S) string :=
  fun w => (Ok (uuid_str self (uuid_count w)), next_uuid w).

(** [await x] of something that returns or raises without touching the state *)
Definition await {A} (r : outcome A) : M (World S) A := fun w => (r, w).

(** [get_configs_model] *)
Definition get_configs_model : M (World S) Model :=
  let* kinds := gets (fun w => all (model_db self) (db w)) in
  ret (from_kinds self kinds).

(** The [WorkerTask(...)] that [acknowledge_config_change] builds. *)
Definition validate_config_task (uid cfg_id : string) (config : Json) : WorkerTask :=
  {| task_id := uid;
     name := WorkerTaskName.validate_config;
     attrs := [("config_id", cfg_id)];
     task_data := [("task", JStr WorkerTaskName.validate_config); ("config", JDict config)];
     timeout := {| seconds := 30 |} |}.

(** [acknowledge_config_change] *)
Definition acknowledge_config_change (cfg_id : string) (config : Json) : M (World S) unit :=
  let* uid := draw_uuid in
  let task := validate_config_task uid cfg_id config in
  add_task task ;;
  let* _ := await (task_result self task) in
  ret tt.

(** The [for key, value in config.items()] loop of [coerce_and_check_model],
    with [final_config] as built so far. *)
Fixpoint coerce_sections (model : Model) (items : Json) (final_config : Json) : outcome Json :=
  match items with
  | [] => Ok final_config
  | (key, value) :: rest =>
      match model !! key with
      | Some kind =>
          match check_valid kind value with
          | Ok coerced =>
              coerce_sections model rest
                (dict_set final_config key (if truthy coerced then coerced else value))
          | Raise ex =>
              if is_Exception ex
              then Raise (AttributeError ("Error validating section " ++ key ++ ": " ++ str ex) ex)
              else Raise ex
          end
      | None => coerce_sections model rest (dict_set final_config key value)
      end
  end.

(** [coerce_and_check_model] *)
Definition coerce_and_check_model (cfg_id : string) (config : Json) (validate : bool) : M (World S) Json :=
  let* model := get_configs_model in
  let* final_config :=
    if validate then await (coerce_sections model config []) else ret config in
  let* validation := gets (fun w => get (validation_db self) cfg_id (db w)) in
  (match validation with
   | Some v =>
       if ConfigValidation.external_validation v && validate
       then acknowledge_config_change cfg_id final_config
       else ret tt
   | None => ret tt
   end) ;;
  ret final_config.

(** [get_config] *)
Definition get_config (cfg_id : string) : M (World S) (option ConfigEntity.t) :=
  gets (fun w => get (cfg_db self) cfg_id (db w)).

Definition revision_json (revision : option string) : json :=
  match revision with Some r => JStr r | None => JNull end.

(** [dict(id=result.id, revision=result.revision)] *)
Definition id_and_revision (result : ConfigEntity.t) : Json :=
  [("id", JStr (ConfigEntity.id result));
   ("revision", revision_json (ConfigEntity.revision result))].

(** [put_config] *)
Definition put_config (cfg : ConfigEntity.t) (validate : bool) : M (World S) ConfigEntity.t :=
  let* coerced :=
    coerce_and_check_model (ConfigEntity.id cfg) (ConfigEntity.config cfg) validate in
  let* existing := gets (fun w => get (cfg_db self) (ConfigEntity.id cfg) (db w)) in
  let write : M (World S) ConfigEntity.t :=
    let* result :=
      on_db (update (cfg_db self)
               (ConfigEntity.mk (ConfigEntity.id cfg) coerced (ConfigEntity.revision cfg))) in
    emit_event ConfigUpdated (id_and_revision result) ;;
    ret result in
  match existing with
  | None => write
  | Some existing' =>
      if py_ne (JDict (ConfigEntity.config existing')) (JDict (ConfigEntity.config cfg))
      then write
      else ret existing'
  end.

(** [patch_config] *)
Definition patch_config (cfg : ConfigEntity.t) : M (World S) ConfigEntity.t :=
  let* current := gets (fun w => get (cfg_db self) (ConfigEntity.id cfg) (db w)) in
  let current_config :=
    match current with Some c => ConfigEntity.config c | None => [] end in
  let* coerced :=
    coerce_and_check_model (ConfigEntity.id cfg)
      (dict_spread current_config (ConfigEntity.config cfg)) true in
  let* result :=
    on_db (update (cfg_db self)
             (ConfigEntity.mk (ConfigEntity.id cfg) coerced
                (match current with Some c => ConfigEntity.revision c | None => None end))) in
  emit_event ConfigUpdated (id_and_revision result) ;;
  ret result.

Definition newline : string := String (ascii_of_nat 10) EmptyString.
Definition dquote : string := String (ascii_of_nat 34) EmptyString.

(** The trailer of [config_yaml] that carries the revision. *)
Definition revision_trailer (revision : string) : string :=
  newline ++ newline
  ++ "# This property is not part of the configuration but defines the revision "
  ++ "of this document." ++ newline
  ++ "# Please leave it here to avoid conflicting writes." ++ newline
  ++ "_revision: " ++ dquote ++ revision ++ dquote.

(** The [for num, (key, value) in enumerate(config.config.items())] loop of
    [config_yaml], with [yaml_str] as built so far. *)
Fixpoint yaml_sections (model : Model) (items : Json) (num : nat) (yaml_str : string) : string :=
  match items with
  | [] => yaml_str
  | (key, value) :: rest =>
      let maybe_kind := model !! key in
      match maybe_kind ≫= create_yaml with
      | Some create_yaml' =>
          let part := create_yaml' value 1%nat in
          let yaml_str := if (0 <? num)%nat then yaml_str ++ newline else yaml_str in
          yaml_sections model rest (Datatypes.S num) (yaml_str ++ key ++ ":" ++ part)
      | None =>
          yaml_sections model rest (Datatypes.S num)
            (yaml_str ++ yaml_dump self [(key, value)])
      end
  end.

(** [config_yaml] *)
Definition config_yaml (cfg_id : string) (revision : bool) : M (World S) (option string) :=
  let* config := get_config cfg_id in
  match config with
  | Some config' =>
      let* model := get_configs_model in
      let yaml_str := yaml_sections model (ConfigEntity.config config') 0 EmptyString in
      let yaml_str :=
        match ConfigEntity.revision config' with
        | Some rev =>
            if revision && truthy (JStr rev)
            then yaml_str ++ revision_trailer rev
            else yaml_str
        | None => yaml_str
        end in
      ret (Some yaml_str)
  | None => ret None
  end.

(** Validation of [config] under [cfg_id] fails in world [w] with [e]:
    the coercion of a section raises, or every section passes and the
    external validator asked for this id rejects the coerced config. *)
Inductive validation_fails (cfg_id : string) (config : Json) (w : World S) : exn -> Prop :=
  | coercion_raises e :
      coerce_sections (from_kinds self (all (model_db self) (db w))) config [] = Raise e ->
      validation_fails cfg_id config w e
  | validator_rejects final_config v e :
      coerce_sections (from_kinds self (all (model_db self) (db w))) config [] = Ok final_config ->
      get (validation_db self) cfg_id (db w) = Some v ->
      ConfigValidation.external_validation v = true ->
      task_result self
        (validate_config_task (uuid_str self (uuid_count w)) cfg_id final_config) = Raise e ->
      validation_fails cfg_id config w e.

End ConfigHandlerService.
End ConfigHandler.
Export ConfigHandler.

(** ** resotocore/config/core_config_handler.py and resotocore/__main__.py *)

Module CoreConfigHandler.
Section CoreConfigHandler.
Context {S : Type}.
(** [ResotoCoreConfigId], defined in [resotocore/core_config.py] *)
Variable ResotoCoreConfigId : string.
(** [exit_fn], over whatever state [S] it acts on *)
Variable exit_fn : M S unit.

(** What [message_bus.subscribe(_, message_types)] makes of the events
    emitted on the bus: the queue gets those of the subscribed types, in
    the order of emission. *)
Definition subscribe (message_types : list CoreMessage) (emitted : list Event) : list Event :=
  List.filter (fun e => existsb (CoreMessage_eqb (message_type e)) message_types) emitted.

(** [event.data.get("id") == ResotoCoreConfigId] *)
Definition is_core_config_update (event : Event) : bool :=
  py_eq (dict_get (data event) "id") (JStr ResotoCoreConfigId).

(** [__handle_events], run on the events its queue delivers: one turn of
    the [while True] loop per event. With the queue empty the coroutine is
    waiting in [events.get()], which is the [Ok] of the empty list; an
    exception of [exit_fn] ends the loop. *)
Fixpoint handle_events (events : list Event) : M S unit :=
  match events with
  | [] => ret tt
  | event :: rest =>
      if is_core_config_update event
      then (exit_fn ;; handle_events rest)
      else handle_events rest
  end.

End CoreConfigHandler.

(** The default [exit_fn]:
    [partial(restart_service, "resotocore config changed.")] *)
Definition default_exit_fn {S} : M S unit :=
  restart_service "resotocore config changed.".

(** An [exit_fn] together with the count of its invocations. *)
Definition counted {S} (exit_fn : M S unit) : M (S * nat) unit :=
  fun sn =>
    match exit_fn (fst sn) with
    | (r, s') => (r, (s', Datatypes.S (snd sn)))
    end.

End CoreConfigHandler.

Module Main.

(** [run], from the [while True] loop on. *)
Inductive status : Type :=
  | Looping                (* about to enter [run_process] *)
  | Returned               (* left the loop by [break]; [run] returns *)
  | Propagated (e : exn).  (* an exception other than [RestartService] left [run] *)

Record supervisor : Type := {
  entered : nat;           (* how often [run_process] has been entered *)
  printed : list string;   (* what has been printed *)
  state : status;
}.

Fixpoint repeat_string (s : string) (n : nat) : string :=
  match n with
  | O => EmptyString
  | Datatypes.S n' => s ++ repeat_string s n'
  end.

(** the banner printed on a restart *)
Definition restart_banner (reason : string) : string :=
  let message := "Restarting Service. Reason: " ++ reason in
  let line := repeat_string "-" (String.length message) in
  newline ++ line ++ newline ++ message ++ newline ++ line ++ newline.

Section run.
(** [run_process n]: how the n-th call of [run_process(args)] ends *)
Variable run_process : nat -> outcome unit.

(** one turn of the [while True] loop *)
Definition run_turn (sv : supervisor) : supervisor :=
  match state sv with
  | Looping =>
      match run_process (entered sv) with
      | Ok _ =>
          {| entered := Datatypes.S (entered sv); printed := printed sv; state := Returned |}
      | Raise (RestartService reason) =>
          {| entered := Datatypes.S (entered sv);
             printed := printed sv ++ [restart_banner reason];
             state := Looping |}
      | Raise e =>
          {| entered := Datatypes.S (entered sv); printed := printed sv; state := Propagated e |}
      end
  | _ => sv
  end.

(** [run], cut off after [turns] turns of its loop *)
Fixpoint run_from (turns : nat) (sv : supervisor) : supervisor :=
  match turns with
  | O => sv
  | Datatypes.S turns' => run_from turns' (run_turn sv)
  end.

Definition run (turns : nat) : supervisor :=
  run_from turns {| entered := 0; printed := []; state := Looping |}.

End run.
End Main.

(** ** An in-memory database and a handler built on it *)

Module InMemory.

(** Modelled from the spec: the document store behind [AsyncArangoDB]
    ([resotocore/db/async_arangodb.py] and the database itself) is not part
    of the sources. Documents are kept per collection under their [_key] and
    carry a [_rev]; [update] of a missing document raises the not-found
    error (code 1202), [update] with a stale [_rev] raises a revision error,
    [insert] of a missing document stores it. Every write gives the
    document a fresh [_rev] and returns [_key] and [_rev]. *)
Record store : Type := {
  docs : gmap (string * string) Json;
  writes : nat;
}.

Definition empty : store := {| docs := ∅; writes := 0 |}.

Fixpoint rev_of (n : nat) : string :=
  match n with
  | O => "r"
  | Datatypes.S n' => rev_of n' ++ "i"
  end.

Definition key_of_doc (doc : Json) : string :=
  match dict_get doc "_key" with JStr k => k | _ => EmptyString end.

Definition write (collection : string) (doc : Json) (s : store) : Json * store :=
  let rev := JStr (rev_of (Datatypes.S (writes s))) in
  let key := key_of_doc doc in
  ([("_key", JStr key); ("_rev", rev)],
   {| docs := <[(collection, key) := dict_set doc "_rev" rev]> (docs s);
      writes := Datatypes.S (writes s) |}).

Definition mem_get (collection key : string) (s : store) : option Json :=
  docs s !! (collection, key).

Definition mem_all (collection : string) (s : store) : list Json :=
  map snd (List.filter (fun kv => String.eqb (fst (fst kv)) collection) (map_to_list (docs s))).

Definition mem_update (collection : string) (doc : Json) : M store Json :=
  fun s =>
    match docs s !! (collection, key_of_doc doc) with
    | None => (Raise (DocumentUpdateError 1202 "document not found"), s)
    | Some stored =>
        match dict_lookup doc "_rev" with
        | Some rev =>
            if py_eq rev (dict_get stored "_rev")
            then let (result, s') := write collection doc s in (Ok result, s')
            else (Raise (DocumentRevisionError "conflict"), s)
        | None => let (result, s') := write collection doc s in (Ok result, s')
        end
    end.

Definition mem_insert (collection : string) (doc : Json) : M store Json :=
  fun s =>
    match docs s !! (collection, key_of_doc doc) with
    | None => let (result, s') := write collection doc s in (Ok result, s')
    | Some _ => (Raise (DocumentInsertError 1210 "unique constraint violated"), s)
    end.

Definition arango : AsyncArangoDB store :=
  {| db_get := mem_get; db_all := mem_all;
     db_update := mem_update; db_insert := mem_insert |}.

(** Modelled from the spec: [ConfigEntity] and [ConfigValidation] are
    declared in [resotocore/config/__init__.py], which is not part of the
    sources. A config entity is [(id, body, revision)] and its revision is
    the [_rev] of its document; a config validation is
    [(id, external_validation)] and has no revision. *)
#[global] Instance ConfigEntity_entity : Entity ConfigEntity.t :=
  {| to_js := fun c =>
       ([("id", JStr (ConfigEntity.id c)); ("config", JDict (ConfigEntity.config c))]
        ++ match ConfigEntity.revision c with
           | Some r => [("_rev", JStr r)]
           | None => []
           end)%list;
     from_js := fun js =>
       ConfigEntity.mk
         (match dict_get js "id" with JStr i => i | _ => EmptyString end)
         (as_dict (dict_get js "config"))
         (match dict_get js "_rev" with JStr r => Some r | _ => None end);
     with_revision := Some (fun c rev =>
       ConfigEntity.mk (ConfigEntity.id c) (ConfigEntity.config c)
         (match rev with JStr r => Some r | _ => None end)) |}.

#[global] Instance ConfigValidation_entity : Entity ConfigValidation.t :=
  {| to_js := fun v =>
       [("id", JStr (ConfigValidation.id v));
        ("external_validation", JBool (ConfigValidation.external_validation v))];
     from_js := fun js =>
       ConfigValidation.mk
         (match dict_get js "id" with JStr i => i | _ => EmptyString end)
         (truthy (dict_get js "external_validation"));
     with_revision := None |}.

Definition config_entity_db : EntityDb store ConfigEntity.t :=
  ArangoEntityDb.entity_db arango "configs" ConfigEntity.id.

Definition config_validation_entity_db : EntityDb store ConfigValidation.t :=
  ArangoEntityDb.entity_db arango "config_validation" ConfigValidation.id.

(** a model store that holds the given kinds *)
Definition configs_model_db (kinds : list Kind) : EntityDb store Kind :=
  {| get := fun key _ => List.find (fun k => String.eqb (fqn k) key) kinds;
     all := fun _ => kinds;
     update := fun k => ret k |}.

(** an entity store that holds the given config entities as they are and
    takes no writes *)
Definition listed_db (entities : list ConfigEntity.t) : EntityDb store ConfigEntity.t :=
  {| get := fun key _ => List.find (fun c => String.eqb (ConfigEntity.id c) key) entities;
     all := fun _ => entities;
     update := fun c => ret c |}.

(** A handler on the given config store, with the given kinds as its model
    and the given worker behind the task queue. *)
Definition service_on (configs : EntityDb store ConfigEntity.t) (kinds : list Kind)
    (worker : WorkerTask -> outcome pyobj) : ConfigHandlerService store :=
  {| cfg_db := configs;
     validation_db := config_validation_entity_db;
     model_db := configs_model_db kinds;
     uuid_str := rev_of;
     task_result := worker;
     from_kinds := fun ks => list_to_map (map (fun k => (fqn k, k)) ks);
     yaml_dump := fun d => String.concat "," (keys d) |}.

(** the handler on the in-memory database *)
Definition service (kinds : list Kind) (worker : WorkerTask -> outcome pyobj) : ConfigHandlerService store :=
  service_on config_entity_db kinds worker.

Definition world (s : store) : World store :=
  {| db := s; message_bus := []; task_queue := []; uuid_count := 0 |}.

(** the database after the given documents were inserted into a collection *)
Definition with_docs (collection : string) (ds : list Json) (s : store) : store :=
  fold_left (fun s d => snd (mem_insert collection d s)) ds s.

(** the database that holds the given configs and config validations *)
Definition store_with (configs : list ConfigEntity.t) (validations : list ConfigValidation.t) : store :=
  with_docs "config_validation"
    (map (ArangoEntityDb.to_doc ConfigValidation.id) validations)
    (with_docs "configs" (map (ArangoEntityDb.to_doc ConfigEntity.id) configs) empty).

(** a driver whose [update] raises [e], whatever it is asked *)
Definition failing_arango (e : exn) : AsyncArangoDB store :=
  {| db_get := mem_get; db_all := mem_all;
     db_update := fun _ _ => raise e; db_insert := mem_insert |}.

(** a kind that accepts integers only *)
Definition int_kind (name : string) : Kind :=
  {| fqn := name;
     check_valid := fun v =>
       match v with
       | JInt _ => Ok JNull
       | _ => Raise (Exception_ "expected int")
       end;
     create_yaml := None |}.

(** a worker that rejects every task *)
Definition rejecting_worker (_ : WorkerTask) : outcome pyobj :=
  Raise (Exception_ "bad value").

(** a worker that accepts every task *)
Definition accepting_worker (_ : WorkerTask) : outcome pyobj :=
  Ok (PJson JNull).

(** two configs with a nested section, and a flat one *)
Definition nested : Json := [("a", JDict [("x", JInt 1)]); ("debug", JBool true)].
Definition nested_patch : Json := [("a", JDict [("y", JInt 2)]); ("debug", JBool false)].
Definition flat : Json := [("a", JInt 1)].

(** the config [nested] stored under the id [cfg], no validation asked *)
Definition world_nested : World store :=
  world (store_with [ConfigEntity.mk "cfg" nested None] []).

(** the config [flat] stored under the id [cfg], external validation asked *)
Definition world_validated : World store :=
  world (store_with [ConfigEntity.mk "cfg" flat None] [ConfigValidation.mk "cfg" true]).

(** handlers without kinds, behind an accepting and a rejecting worker, and
    a handler whose section [a] has to be an integer *)
Definition accepting : ConfigHandlerService store := service [] accepting_worker.
Definition rejecting : ConfigHandlerService store := service [] rejecting_worker.
Definition typed : ConfigHandlerService store := service [int_kind "a"] accepting_worker.

(** a handler whose store holds [flat] under [cfg] without a revision *)
Definition unrevisioned : ConfigHandlerService store :=
  service_on (listed_db [ConfigEntity.mk "cfg" flat None]) [] accepting_worker.

(** the id of the core config, and the events a listener for it receives
    after a put of the core config and of another config *)
Definition core_id : string := "resoto.core".

Definition core_events : list Event :=
  CoreConfigHandler.subscribe [ConfigUpdated]
    (message_bus (snd (put_config accepting (ConfigEntity.mk core_id flat None) true
                         (world empty)))).

Definition other_events : list Event :=
  CoreConfigHandler.subscribe [ConfigUpdated]
    (message_bus (snd (put_config accepting (ConfigEntity.mk "cfg" flat None) true
                         (world empty)))).

(** an [exit_fn] that returns *)
Definition quiet_exit_fn : M unit unit := ret tt.

(** a [run_process] that ends with a restart the first time and returns
    the second time *)
Definition restart_once (n : nat) : outcome unit :=
  match n with
  | O => Raise (RestartService "resotocore config changed.")
  | _ => Ok tt
  end.

End InMemory.

(** ** More of resotocore/util.py *)

Module UtilMore.

(** [d.pop(key, None)] *)
Fixpoint dict_pop (d : Json) (key : string) : Json :=
  match d with
  | [] => []
  | kv :: d' => if String.eqb key (fst kv) then d' else kv :: dict_pop d' key
  end.

(** [pop_keys(d, keys)], on a dict with string keys *)
Definition pop_keys (d : Json) (keys : list string) : Json :=
  fold_left dict_pop keys d.

(** [s.split(sep)] for a separator of one character *)
Fixpoint split (sep : ascii) (s : string) : list string :=
  match s with
  | EmptyString => [EmptyString]
  | String c s' =>
      if Ascii.eqb c sep then EmptyString :: split sep s'
      else match split sep s' with
           | [] => [String c EmptyString]
           | word :: words => String c word :: words
           end
  end.

(** [path_or_name if isinstance(path_or_name, list) else path_or_name.split(".")] *)
Definition path_of (path_or_name : list string + string) : list string :=
  match path_or_name with
  | inl path => path
  | inr name => split "." name
  end.

(** The inner [at_idx(current, idx)] of [value_in_path], with the rest of
    the path from [idx] on in place of [idx]; [None] is [JNull]. *)
Fixpoint value_at (current : json) (path : list string) : json :=
  match path with
  | [] => current
  | key :: rest =>
      match current with
      | JDict d =>
          match dict_lookup d key with
          | Some value => value_at value rest
          | None => JNull
          end
      | _ => JNull
      end
  end.

(** [value_in_path(element, path_or_name)] *)
Definition value_in_path (element : json) (path_or_name : list string + string) : json :=
  value_at element (path_of path_or_name).

(** The inner [at_idx(current, idx)] of [set_value_in_path] on a path that
    is not empty, with the rest of the path from [idx] on in place of
    [idx]: the dict [current] as the call leaves it. *)
Fixpoint set_at (element : json) (current : Json) (path : list string) : Json :=
  match path with
  | [] => current
  | [key] => dict_set current key element
  | key :: rest =>
      let value := dict_get current key in
      let value := if is_dict value then as_dict value else [] in
      dict_set current key (JDict (set_at element value rest))
  end.

(** [set_value_in_path(element, path_or_name, js)]; the dict it returns is
    [js] itself, updated in place. With an empty path the source asks for
    [path[0]] of an empty list, an [IndexError]. *)
Definition set_value_in_path (element : json) (path_or_name : list string + string)
    (js : option Json) : outcome Json :=
  let path := path_of path_or_name in
  let js := match js with Some js => js | None => [] end in
  match path with
  | [] => Raise (Exception_ "list index out of range")
  | _ :: _ => Ok (set_at element js path)
  end.

(** The inner [at_idx(current, idx)] of [del_value_in_path] on a path that
    is not empty: the value [current] as the call leaves it. *)
Fixpoint del_at (current : json) (path : list string) : json :=
  match path with
  | [] => current
  | key :: rest =>
      match current with
      | JDict d =>
          match dict_lookup d key with
          | None => current
          | Some child =>
              match rest with
              | [] => JDict (dict_pop d key)
              | _ :: _ =>
                  let child := del_at child rest in
                  JDict (dict_set d key (if truthy child then child else JNull))
              end
          end
      | _ => current
      end
  end.

(** [del_value_in_path(element, path)]: it returns [element], changed in
    place. With an empty path a dict makes the source ask for [path[0]], an
    [IndexError]; anything else is returned at once. *)
Definition del_value_in_path (element : json) (path : list string) : outcome json :=
  match path with
  | [] => if is_dict element then Raise (Exception_ "list index out of range") else Ok element
  | _ :: _ => Ok (del_at element path)
  end.

(** [interleave(elements)] *)
Definition interleave {A : Type} (elements : list A) : list (A * A) :=
  if (length elements <? 2)%nat then []
  else combine elements (tl elements).

(** [exist(f, iterable)], with [f a] the truth of what the callable returns *)
Fixpoint exist {A : Type} (f : A -> bool) (iterable : list A) : bool :=
  match iterable with
  | [] => false
  | a :: rest => if f a then true else exist f rest
  end.

(** [first(f, iterable)] *)
Fixpoint first {A : Type} (f : A -> bool) (iterable : list A) : option A :=
  match iterable with
  | [] => None
  | a :: rest => if f a then Some a else first f rest
  end.

Section group_by.
Context {A K : Type}.
Variable key_eqb : K -> K -> bool.

(** [v[key].append(item)] on a [defaultdict(list)], the keys in the order
    of their first use *)
Fixpoint append_item (v : list (K * list A)) (key : K) (item : A) : list (K * list A) :=
  match v with
  | [] => [(key, [item])]
  | (key', items) :: v' =>
      if key_eqb key key' then (key', items ++ [item])%list :: v'
      else (key', items) :: append_item v' key item
  end.

(** [group_by(f, iterable)] *)
Definition group_by (f : A -> K) (iterable : list A) : list (K * list A) :=
  fold_left (fun v item => append_item v (f item) item) iterable [].

(** [v[key]] of the result, when the key is there *)
Fixpoint group (v : list (K * list A)) (key : K) : option (list A) :=
  match v with
  | [] => None
  | (key', items) :: v' => if key_eqb key key' then Some items else group v' key
  end.
End group_by.

(** [class Periodic]: its [_task] is [None], a running task or a cancelled
    one. [tasks_created] counts the calls of [asyncio.ensure_future]. *)
Inductive task_state : Type :=
  | TaskRunning
  | TaskCancelled.

Record Periodic : Type := {
  _task : option task_state;
  tasks_created : nat;
}.

(** [Periodic(name, func, frequency)] *)
Definition new_periodic : Periodic := {| _task := None; tasks_created := 0 |}.

(** [started] *)
Definition started (p : Periodic) : bool :=
  match _task p with Some _ => true | None => false end.

(** [start] *)
Definition start (p : Periodic) : Periodic :=
  match _task p with
  | None => {| _task := Some TaskRunning; tasks_created := Datatypes.S (tasks_created p) |}
  | Some _ => p
  end.

(** [stop] *)
Definition stop (p : Periodic) : Periodic :=
  match _task p with
  | Some _ => {| _task := Some TaskCancelled; tasks_created := tasks_created p |}
  | None => p
  end.

Inductive periodic_call : Type :=
  | Start
  | Stop.

(** a series of [start] and [stop] calls on one [Periodic] *)
Definition periodic_calls (calls : list periodic_call) (p : Periodic) : Periodic :=
  fold_left (fun p call => match call with Start => start p | Stop => stop p end) calls p.

(** What [_run] has done: the calls of [func] made and the errors logged. *)
Record periodic_run : Type := {
  func_calls : nat;
  logged : list string;
  ended : option exn;
}.

Section periodic_run.
(** [self.name] *)
Variable name : string.
(** [func n]: how the n-th call of [self.func] (and the await of what it
    returns) ends *)
Variable func : nat -> outcome unit.

(** one turn of the [while True] loop of [_run] *)
Definition run_tick (r : periodic_run) : periodic_run :=
  match ended r with
  | Some _ => r
  | None =>
      match func (func_calls r) with
      | Ok _ =>
          {| func_calls := Datatypes.S (func_calls r); logged := logged r; ended := None |}
      | Raise ex =>
          if is_Exception ex
          then
            let message := "Periodic function " ++ name ++ " caught an exception: " ++ str ex in
            {| func_calls := Datatypes.S (func_calls r);
               logged := (logged r ++ [message])%list; ended := None |}
          else {| func_calls := Datatypes.S (func_calls r);
                  logged := logged r; ended := Some ex |}
      end
  end.

(** [_run], cut off after [ticks] turns of its loop *)
Fixpoint run_ticks (ticks : nat) (r : periodic_run) : periodic_run :=
  match ticks with
  | O => r
  | Datatypes.S ticks' => run_ticks ticks' (run_tick r)
  end.

Definition _run (ticks : nat) : periodic_run :=
  run_ticks ticks {| func_calls := 0; logged := []; ended := None |}.

(** what [_run] logs for its n-th call of [func] *)
Definition logged_for (n : nat) : list string :=
  match func n with
  | Raise ex =>
      if is_Exception ex
      then ["Periodic function " ++ name ++ " caught an exception: " ++ str ex]
      else []
  | Ok _ => []
  end.
End periodic_run.

End UtilMore.

(** ** More of resotocore/config/core_config_handler.py *)

Module CoreConfigHandlerMore.
Import UtilMore.

Section update_config.
Context {S : Type}.
(** [self.config_handler] *)
Variable config_handler : ConfigHandlerService S.
(** [ResotoCoreConfigId], defined in [resotocore/core_config.py] *)
Variable ResotoCoreConfigId : string.
(** [empty_config().json()], defined in [resotocore/dependencies.py] *)
Variable empty : Json.

(** [__update_config]; what it logs is left out *)
Definition update_config : M (World S) unit :=
  try_except
    (let* existing := get_config config_handler ResotoCoreConfigId in
     let updated :=
       match existing with
       | Some existing' => deep_merge empty (ConfigEntity.config existing')
       | None => empty
       end in
     if match existing with
        | None => true
        | Some existing' => py_ne (JDict updated) (JDict (ConfigEntity.config existing'))
        end
     then
       let* _ := put_config config_handler
                   (ConfigEntity.mk ResotoCoreConfigId updated None) false in
       ret tt
     else ret tt)
    (fun ex => if is_Exception ex then ret tt else raise ex).

End update_config.

(** What the validator of the core config tells the worker task queue about
    a task: [acknowledge_task(worker_id, task_id)] or
    [error_task(worker_id, task_id, message)]. *)
Inductive reply : Type :=
  | Acknowledged (worker_id task_id : string)
  | Errored (worker_id task_id message : string).

Definition reply_task_id (r : reply) : string :=
  match r with
  | Acknowledged _ task_id => task_id
  | Errored _ task_id _ => task_id
  end.

Section validate_config.
(** [ResotoCoreRoot], defined in [resotocore/core_config.py] *)
Variable ResotoCoreRoot : string.
(** [from_js(config, EditableConfig)]: it returns or raises *)
Variable read_editable_config : Json -> outcome unit.
(** [EditableConfig.validate_config(config)]: the errors found *)
Variable validate_config : Json -> json.
(** [yaml.safe_dump(errors)] *)
Variable safe_dump : json -> string.

Definition worker_id : string := "resotocore.config.validate".

(** Modelled from the spec: [acknowledge_task] and [error_task] belong to
    [resotocore/worker_task_queue.py], which is not part of the sources; the
    queue takes the answer of the worker and completes the future of the
    task. Here the answers are kept in the order they are given. *)
Definition acknowledge_task (worker_id task_id : string) : M (list reply) unit :=
  modify (fun replies => (replies ++ [Acknowledged worker_id task_id])%list).

Definition error_task (worker_id task_id message : string) : M (list reply) unit :=
  modify (fun replies => (replies ++ [Errored worker_id task_id message])%list).

(** one turn of the [while True] loop of [__validate_config], for the task
    the queue hands out *)
Definition validate_task (task : WorkerTask) : M (list reply) unit :=
  let* answered :=
    try_except
      (let config := value_in_path (JDict (task_data task)) (inl ["config"; ResotoCoreRoot]) in
       match config with
       | JDict config' =>
           let* _ := (fun replies => (read_editable_config config', replies)) in
           let errors := validate_config config' in
           (if truthy errors
            then error_task worker_id (task_id task)
                   (("Validation Errors:" ++ newline ++ safe_dump errors)%string)
            else acknowledge_task worker_id (task_id task)) ;;
           ret true
       | _ => ret false
       end)
      (fun ex =>
         if is_Exception ex
         then (error_task worker_id (task_id task) (str ex) ;; ret true)
         else raise ex) in
  if (answered : bool) then ret tt
  else error_task worker_id (task_id task) "Failing to process the task!".

(** [__validate_config], run on the tasks its queue hands out *)
Fixpoint validate_tasks (tasks : list WorkerTask) : M (list reply) unit :=
  match tasks with
  | [] => ret tt
  | task :: rest => (validate_task task ;; validate_tasks rest)
  end.

End validate_config.
End CoreConfigHandlerMore.

(** ** Inputs for the proofs *)

Module Examples.

(** a kind that turns the strings it knows into seconds *)
Definition duration_kind (name : string) : Kind :=
  {| fqn := name;
     check_valid := fun v =>
       match v with
       | JInt _ => Ok JNull
       | JStr "1h" => Ok (JInt 3600)
       | _ => Raise (Exception_ "no duration")
       end;
     create_yaml := None |}.

(** a handler whose section [timeout] is a duration *)
Definition durations : ConfigHandlerService InMemory.store :=
  InMemory.service [duration_kind "timeout"] InMemory.accepting_worker.

(** a validator of the core config that wants a [port] in the section *)
Definition wants_port (config : Json) : json :=
  if dict_contains config "port" then JDict []
  else JDict [("port", JStr "missing")].

Definition reads_all (_ : Json) : outcome unit := Ok tt.

Definition dump_keys (errors : json) : string :=
  String.concat "," (keys (as_dict errors)).

End Examples.

Module ExamplesCore.

(** defaults of a core config, and a stored core config that turns a
    default off *)
Definition defaults : Json := [("analytics", JBool true); ("port", JInt 8900)].
Definition stored : Json := [("analytics", JBool false); ("port", JInt 9955)].

Definition world_stored : World InMemory.store :=
  InMemory.world (InMemory.store_with [ConfigEntity.mk "resoto.core" stored None] []).

End ExamplesCore.

(** * Proofs *)

(** unfolds the combinators of the coroutine monad *)
Ltac unfold_coro := unfold bind, ret, raise, gets, modify, try_except.

(** ** Facts about dictionaries *)

Section dict_facts.
Implicit Types (d : Json) (k : string) (v : json).

Lemma mem_true_iff k ks : mem k ks = true <-> In k ks.
Proof.
  unfold mem. rewrite existsb_exists. split.
  - intros [x [Hin Heq]]. apply String.eqb_eq in Heq. now subst.
  - intros Hin. exists k. split; [assumption | apply String.eqb_refl].
Qed.

Lemma mem_false_iff k ks : mem k ks = false <-> ~ In k ks.
Proof.
  rewrite <- mem_true_iff. destruct (mem k ks); split; congruence.
Qed.

Lemma dict_lookup_None d k : dict_lookup d k = None <-> ~ In k (keys d).
Proof.
  induction d as [|[k' v'] d IH]; simpl.
  - tauto.
  - destruct (String.eqb_spec k k') as [->|Hne].
    + split; [discriminate | tauto].
    + rewrite IH. split; [intros H [Heq|Hin]; [congruence | tauto] | tauto].
Qed.

Lemma dict_lookup_contains d k : dict_contains d k = false <-> dict_lookup d k = None.
Proof. unfold dict_contains. destruct (dict_lookup d k); split; congruence. Qed.

Lemma dict_lookup_head d kv :
  dict_lookup (kv :: d) (fst kv) = Some (snd kv).
Proof. destruct kv as [k v]. simpl. now rewrite String.eqb_refl. Qed.

Lemma dict_lookup_nodup d kv :
  nodup_keys (keys d) = true -> In kv d -> dict_lookup d (fst kv) = Some (snd kv).
Proof.
  induction d as [|[k' v'] d IH]; simpl; [tauto|].
  intros Hnd [<-|Hin]; simpl.
  - now rewrite String.eqb_refl.
  - apply andb_prop in Hnd as [Hfresh Hnd].
    apply negb_true_iff, mem_false_iff in Hfresh.
    destruct (String.eqb_spec (fst kv) k') as [Heq|Hne].
    + exfalso. apply Hfresh. rewrite <- Heq. apply in_map. exact Hin.
    + now apply IH.
Qed.

Lemma dict_get_nodup d kv :
  nodup_keys (keys d) = true -> In kv d -> dict_get d (fst kv) = snd kv.
Proof. intros Hnd Hin. unfold dict_get. now rewrite (dict_lookup_nodup d kv). Qed.

(** Reading every key of a dictionary, in order, gives the dictionary back. *)
Lemma map_dict_get_keys d :
  nodup_keys (keys d) = true -> map (fun k => (k, dict_get d k)) (keys d) = d.
Proof.
  intros Hnd. unfold keys. rewrite map_map.
  rewrite <- (map_id d) at 2. apply map_ext_in.
  intros [k v] Hin. simpl. f_equal.
  exact (dict_get_nodup d (k, v) Hnd Hin).
Qed.

Lemma dict_lookup_set d k v k' :
  dict_lookup (dict_set d k v) k' =
  if String.eqb k' k then Some v else dict_lookup d k'.
Proof.
  induction d as [|[k0 v0] d IH]; simpl.
  - reflexivity.
  - destruct (String.eqb_spec k k0) as [->|Hne]; simpl.
    + destruct (String.eqb_spec k' k0); reflexivity.
    + rewrite IH. destruct (String.eqb_spec k' k0) as [->|Hne'].
      * destruct (String.eqb_spec k0 k); [congruence | reflexivity].
      * reflexivity.
Qed.

Lemma keys_dict_set_in d k v : In k (keys d) -> keys (dict_set d k v) = keys d.
Proof.
  induction d as [|[k0 v0] d IH]; simpl; [tauto|].
  intros Hin. destruct (String.eqb_spec k k0) as [->|Hne]; simpl.
  - reflexivity.
  - f_equal. apply IH. destruct Hin; [congruence | assumption].
Qed.

Lemma keys_dict_set_fresh d k v : ~ In k (keys d) -> keys (dict_set d k v) = (keys d ++ [k])%list.
Proof.
  induction d as [|[k0 v0] d IH]; simpl; [reflexivity|].
  intros Hin. destruct (String.eqb_spec k k0) as [->|Hne]; simpl.
  - tauto.
  - f_equal. apply IH. tauto.
Qed.

(** [{**left, **right}] key by key: the value of [right] where [right] has
    the key, the value of [left] elsewhere. *)
Lemma dict_lookup_spread left right k :
  nodup_keys (keys right) = true ->
  dict_lookup (dict_spread left right) k =
  match dict_lookup right k with
  | Some v => Some v
  | None => dict_lookup left k
  end.
Proof.
  unfold dict_spread. revert left.
  induction right as [|[k0 v0] right IH]; intros left Hnd; simpl.
  - reflexivity.
  - simpl in Hnd. apply andb_prop in Hnd as [Hfresh Hnd].
    apply negb_true_iff, mem_false_iff in Hfresh.
    rewrite IH by assumption. rewrite dict_lookup_set.
    destruct (String.eqb_spec k k0) as [->|Hne].
    + apply dict_lookup_None in Hfresh. fold (keys right) in Hfresh.
      now rewrite Hfresh.
    + reflexivity.
Qed.

End dict_facts.

(** ** [py_eq] is reflexive on Python values *)

Lemma py_eq_list_refl (l : list json) :
  Forall (fun x => py_eq x x = true) l -> py_eq (JList l) (JList l) = true.
Proof.
  simpl. induction 1 as [|x l Hx _ IH]; [reflexivity|].
  now rewrite Hx, IH.
Qed.

Lemma py_eq_dict_entries (ys xs : Json) :
  Forall (fun kv => dict_lookup ys (fst kv) = Some (snd kv)
                    /\ py_eq (snd kv) (snd kv) = true) xs ->
  (fix go (xs : Json) : bool :=
     match xs with
     | [] => true
     | kv :: xs' =>
         match dict_lookup ys (fst kv) with
         | Some w => py_eq (snd kv) w
         | None => false
         end && go xs'
     end) xs = true.
Proof.
  induction 1 as [|kv xs [Hl He] _ IH]; [reflexivity|].
  now rewrite Hl, He, IH.
Qed.

Lemma py_eq_refl (v : json) : wf v = true -> py_eq v v = true.
Proof.
  induction v as [ | b | z | s | l IH | d IH ] using json_nested_ind; intros Hwf.
  - reflexivity.
  - simpl. now destruct b.
  - simpl. apply Z.eqb_refl.
  - simpl. apply String.eqb_refl.
  - apply py_eq_list_refl. simpl in Hwf.
    rewrite forallb_forall in Hwf. rewrite List.Forall_forall in IH |- *.
    intros x Hx. apply IH; [exact Hx | now apply Hwf].
  - simpl in Hwf. apply andb_prop in Hwf as [Hnd Hall].
    rewrite forallb_forall in Hall.
    cbn [py_eq]. rewrite Nat.eqb_refl. simpl.
    apply py_eq_dict_entries. rewrite List.Forall_forall in IH |- *.
    intros kv Hin. split.
    + now apply dict_lookup_nodup.
    + apply IH; [exact Hin | now apply Hall].
Qed.

(** ** [deep_merge] *)

Section deep_merge_facts.

Lemma merge_values_dict (left_value : json) (rd : Json) :
  merge_values left_value (JDict rd) =
  JDict (map (fun k => (k, merge_at (as_dict left_value) rd k))
           (union_keys (as_dict left_value) rd)).
Proof. reflexivity. Qed.

Lemma merge_values_falsy (left_value right_value : json) :
  is_dict right_value = false -> truthy right_value = false ->
  merge_values left_value right_value = left_value.
Proof.
  intros Hd Ht.
  destruct right_value; try discriminate Hd; cbn [merge_values]; now rewrite Ht.
Qed.

Lemma merge_values_truthy (left_value right_value : json) :
  is_dict right_value = false -> truthy right_value = true ->
  merge_values left_value right_value = right_value.
Proof.
  intros Hd Ht.
  destruct right_value; try discriminate Hd; cbn [merge_values]; now rewrite Ht.
Qed.

(** [merge_at] reads [right.get(key)]. *)
Lemma merge_at_get (left rs : Json) (key : string) :
  merge_at left rs key = merge_values (dict_get left key) (dict_get rs key).
Proof.
  induction rs as [|[k v] rs IH]; simpl.
  - reflexivity.
  - unfold dict_get at 3. simpl.
    destruct (String.eqb key k); [reflexivity|]. exact IH.
Qed.

(** The inner [merge(key)] of the source is [merge_values] on the two
    values read with [get]. *)
Lemma merge_merge_values (left right : Json) (key : string) :
  merge left right key = merge_values (dict_get left key) (dict_get right key).
Proof.
  unfold merge. destruct (dict_get right key) as [ | | | | |rd]; try reflexivity.
  rewrite merge_values_dict. unfold deep_merge. rewrite merge_values_dict. simpl.
  now destruct (dict_get left key).
Qed.

(** [deep_merge] is the comprehension of the source:
    [{k: merge(k) for k in set(left.keys()).union(right.keys())}]. *)
Lemma deep_merge_unfold (left right : Json) :
  deep_merge left right = map (fun k => (k, merge left right k)) (union_keys left right).
Proof.
  unfold deep_merge. rewrite merge_values_dict. simpl.
  apply map_ext. intros k. now rewrite merge_at_get, merge_merge_values.
Qed.

Lemma keys_deep_merge (left right : Json) :
  keys (deep_merge left right) = union_keys left right.
Proof.
  rewrite deep_merge_unfold. unfold keys. rewrite map_map. simpl. apply map_id.
Qed.

Lemma union_keys_In (left right : Json) (k : string) :
  In k (union_keys left right) <-> In k (keys left) \/ In k (keys right).
Proof.
  unfold union_keys. rewrite in_app_iff, filter_In, negb_true_iff, mem_false_iff.
  destruct (in_dec String.string_dec k (keys left)); tauto.
Qed.

Lemma union_keys_self (d : Json) : union_keys d d = keys d.
Proof.
  unfold union_keys.
  assert (Hnil : forall ks, (forall k, In k ks -> In k (keys d)) ->
                      List.filter (fun k => negb (mem k (keys d))) ks = []).
  { induction ks as [|k ks IH]; intros Hsub; cbn [List.filter]; [reflexivity|].
    assert (Hk : mem k (keys d) = true) by (apply mem_true_iff, Hsub; now left).
    rewrite Hk. cbn [negb]. apply IH. intros k' Hk'. apply Hsub. now right. }
  rewrite Hnil by auto. apply app_nil_r.
Qed.

Lemma dict_lookup_map_keys (f : string -> json) (ks : list string) (k : string) :
  dict_lookup (map (fun k => (k, f k)) ks) k =
  if mem k ks then Some (f k) else None.
Proof.
  induction ks as [|k0 ks IH]; simpl; [reflexivity|].
  destruct (String.eqb_spec k k0) as [->|Hne]; simpl; [reflexivity | exact IH].
Qed.

(** The value of [deep_merge(left, right)] at a key of either side. *)
Lemma dict_lookup_deep_merge (left right : Json) (key : string) :
  dict_lookup (deep_merge left right) key =
  if mem key (union_keys left right) then Some (merge left right key) else None.
Proof. rewrite deep_merge_unfold. apply dict_lookup_map_keys. Qed.

Lemma merge_values_same (v : json) : wf v = true -> merge_values v v = v.
Proof.
  induction v as [ | b | z | s | l IH | d IH ] using json_nested_ind; intros Hwf;
    try (simpl; now destruct_all bool).
  - simpl. now destruct (Z.eqb z 0).
  - simpl. now destruct (String.eqb s EmptyString).
  - simpl. now destruct l.
  - rewrite merge_values_dict. simpl as_dict. rewrite union_keys_self.
    simpl in Hwf. apply andb_prop in Hwf as [Hnd Hall].
    rewrite forallb_forall in Hall. rewrite List.Forall_forall in IH.
    f_equal.
    transitivity (map (fun k => (k, dict_get d k)) (keys d));
      [| now apply map_dict_get_keys].
    apply map_ext_in. intros k Hk. f_equal.
    rewrite merge_at_get.
    unfold keys in Hk. apply in_map_iff in Hk as [kv [<- Hin]].
    rewrite (dict_get_nodup d kv Hnd Hin).
    apply IH; [exact Hin | now apply Hall].
Qed.

Lemma deep_merge_same (x : Json) : wf (JDict x) = true -> deep_merge x x = x.
Proof.
  intros Hwf. unfold deep_merge. now rewrite (merge_values_same (JDict x) Hwf).
Qed.

End deep_merge_facts.

(** C6. [deep_merge] is idempotent: for every JSON object [x] (a Python dict,
    so no object in it repeats a key), [deep_merge(x, x) == x] holds, with
    [==] the equality of Python. *)
Theorem deep_merge_idempotent (x : Json) :
  wf (JDict x) = true -> py_eq (JDict (deep_merge x x)) (JDict x) = true.
Proof.
  intros Hwf. rewrite (deep_merge_same x Hwf). now apply py_eq_refl.
Qed.

Lemma deep_merge_idempotent_witness :
  py_eq
    (JDict (deep_merge
              [("api", JDict [("port", JInt 8900); ("tls", JBool false)]);
               ("hosts", JList [JStr "localhost"]); ("debug", JNull)]
              [("api", JDict [("port", JInt 8900); ("tls", JBool false)]);
               ("hosts", JList [JStr "localhost"]); ("debug", JNull)]))
    (JDict [("api", JDict [("port", JInt 8900); ("tls", JBool false)]);
            ("hosts", JList [JStr "localhost"]); ("debug", JNull)]) = true.
Proof. apply deep_merge_idempotent. reflexivity. Defined.

(** When the left side has the key and the right value is falsy and no
    dict, [deep_merge] keeps the left value. *)
Lemma deep_merge_left_wins (left right : Json) (key : string) (lv : json) :
  dict_lookup left key = Some lv ->
  is_dict (dict_get right key) = false -> truthy (dict_get right key) = false ->
  dict_lookup (deep_merge left right) key = Some lv.
Proof.
  intros Hl Hd Ht. rewrite dict_lookup_deep_merge.
  assert (Hin : mem key (union_keys left right) = true).
  { apply mem_true_iff, union_keys_In. left.
    destruct (in_dec String.string_dec key (keys left)) as [|Hn]; [assumption|].
    apply dict_lookup_None in Hn. congruence. }
  rewrite Hin, merge_merge_values, merge_values_falsy by assumption.
  unfold dict_get. now rewrite Hl.
Qed.

(** When the left side lacks the key and the right value is falsy and no
    dict, the result holds [None] at the key, whatever the right value. *)
Lemma deep_merge_left_absent (left right : Json) (key : string) (rv : json) :
  dict_lookup left key = None ->
  dict_lookup right key = Some rv ->
  is_dict rv = false -> truthy rv = false ->
  dict_lookup (deep_merge left right) key = Some JNull.
Proof.
  intros Hl Hr Hd Ht. rewrite dict_lookup_deep_merge.
  assert (Hin : mem key (union_keys left right) = true).
  { apply mem_true_iff, union_keys_In. right.
    destruct (in_dec String.string_dec key (keys right)) as [|Hn]; [assumption|].
    apply dict_lookup_None in Hn. congruence. }
  rewrite Hin, merge_merge_values. unfold dict_get. rewrite Hl, Hr.
  now rewrite merge_values_falsy.
Qed.

(** C5. On [left = {}] and [right = {"a": False}] the key ["a"] is absent on
    the left and its right value is falsy and no dict; [deep_merge] answers
    [{"a": None}], so the right value [False] is not kept. *)
Theorem deep_merge_absent_left_drops_falsy :
  deep_merge [] [("a", JBool false)] = [("a", JNull)]
  /\ py_eq (dict_get (deep_merge [] [("a", JBool false)]) "a") (JBool false) = false.
Proof. split; reflexivity. Qed.

(** ** Futures *)

Lemma set_future_result_done (f : Future) (result : pyobj) :
  done f = true -> set_future_result result f = (Ok tt, f).
Proof.
  intros Hdone. unfold set_future_result. unfold_coro. rewrite Hdone. reflexivity.
Qed.

(** An attempt on a pending future completes it, and never raises. *)
Lemma set_future_result_completes (f : Future) (result : pyobj) :
  fst (set_future_result result f) = Ok tt
  /\ done (snd (set_future_result result f)) = true.
Proof.
  destruct f; try (rewrite set_future_result_done by reflexivity; now split).
  unfold set_future_result. unfold_coro. simpl.
  destruct result as [j|e]; [now split|].
  destruct (is_Exception e); now split.
Qed.

(** C9. A worker-task future is resolved once: for every future that has
    been completed (with a result or an exception, or cancelled), an attempt
    to complete it through [set_future_result], and any series of such
    attempts, returns without raising and leaves the future as it was, so
    what an awaiter gets from it stays what the first resolution put
    there. *)
Theorem set_future_result_once (f : Future) (result : pyobj) (later : list pyobj) :
  done f = true ->
  set_future_result result f = (Ok tt, f)
  /\ set_future_results later f = (Ok tt, f)
  /\ await_future (snd (set_future_results (result :: later) f)) = await_future f.
Proof.
  intros Hdone.
  assert (Hlater : forall rs, set_future_results rs f = (Ok tt, f)).
  { induction rs as [|r rs IH]; [reflexivity|].
    cbn [set_future_results]. unfold bind.
    rewrite (set_future_result_done f r Hdone). exact IH. }
  split; [now apply set_future_result_done|].
  split; [apply Hlater|].
  now rewrite Hlater.
Qed.

(** The future completed first with [1]: a later result and a later
    exception change nothing. *)
Lemma set_future_result_once_witness :
  let f := snd (set_future_result (PJson (JInt 1)) Pending) in
  set_future_result (PJson (JInt 2)) f = (Ok tt, f)
  /\ set_future_results [PExn (Exception_ "late"); PJson JNull] f = (Ok tt, f)
  /\ await_future
       (snd (set_future_results
               [PJson (JInt 2); PExn (Exception_ "late"); PJson JNull] f))
     = await_future f.
Proof.
  apply (set_future_result_once
           (snd (set_future_result (PJson (JInt 1)) Pending))
           (PJson (JInt 2)) [PExn (Exception_ "late"); PJson JNull]).
  reflexivity.
Defined.

(** The first of a series of attempts on a pending future decides. *)
Lemma first_resolution_decides (first : pyobj) (later : list pyobj) :
  set_future_results (first :: later) Pending = set_future_result first Pending.
Proof.
  destruct (set_future_result_completes Pending first) as [Hok Hdone].
  cbn [set_future_results]. unfold bind.
  destruct (set_future_result first Pending) as [r f] eqn:E. simpl in Hok, Hdone.
  subst r. clear E.
  induction later as [|r rs IH]; [reflexivity|].
  cbn [set_future_results]. unfold bind.
  now rewrite (set_future_result_done f r Hdone).
Qed.

(** ** [ArangoEntityDb.update] *)

Section ArangoEntityDb_update.
Context {S T : Type} `{Entity T}.
Variable db : AsyncArangoDB S.
Variable collection_name : string.
Variable key_of : T -> string.

#[local] Abbreviation update := (ArangoEntityDb.update db collection_name key_of).
#[local] Abbreviation to_doc := (ArangoEntityDb.to_doc key_of).
#[local] Abbreviation take_revision := ArangoEntityDb.take_revision.

Lemma update_accepted (t : T) (s s' : S) (result : Json) :
  db_update db collection_name (to_doc t) s = (Ok result, s') ->
  update t s = (Ok (take_revision t result), s').
Proof.
  intros Hu. unfold ArangoEntityDb.update. unfold_coro. now rewrite Hu.
Qed.

Lemma update_stale_revision (t : T) (s s' : S) (msg : string) :
  db_update db collection_name (to_doc t) s = (Raise (DocumentRevisionError msg), s') ->
  update t s =
  (Raise (OptimisticLockingFailed (key_of t) (DocumentRevisionError msg)), s').
Proof.
  intros Hu. unfold ArangoEntityDb.update. unfold_coro. now rewrite Hu.
Qed.

Lemma update_not_found (t : T) (s s' : S) (msg : string) :
  db_update db collection_name (to_doc t) s = (Raise (DocumentUpdateError 1202 msg), s') ->
  update t s =
  (let* result := db_insert db collection_name (to_doc t) in
   ret (take_revision t result)) s'.
Proof.
  intros Hu. unfold ArangoEntityDb.update. unfold_coro. now rewrite Hu.
Qed.

Lemma update_other_error (t : T) (s s' : S) (e : exn) :
  db_update db collection_name (to_doc t) s = (Raise e, s') ->
  (forall msg, e <> DocumentRevisionError msg) ->
  (forall msg, e <> DocumentUpdateError 1202 msg) ->
  update t s = (Raise e, s').
Proof.
  intros Hu Hrev Hnf. unfold ArangoEntityDb.update. unfold_coro. rewrite Hu.
  destruct e as [ | | | m | code m | | | | ]; try reflexivity.
  - now destruct (Hrev m).
  - destruct (Z.eqb_spec code 1202) as [->|Hne]; [now destruct (Hnf m) | reflexivity].
Qed.

(** C7. For every update of an entity store, whatever the database driver:
    when the driver's update raises a revision error (stale [_rev]), the
    update raises [OptimisticLockingFailed] for the key of the entity, with
    the revision error as its cause; when the driver's update raises the
    document-not-found error (code 1202), the document is inserted instead
    and the update returns the entity with the revision of the insert; any
    other document-update error is raised as it is. *)
Theorem update_revision_and_missing (t : T) (s s' : S) :
  (forall msg,
      db_update db collection_name (to_doc t) s = (Raise (DocumentRevisionError msg), s') ->
      update t s =
      (Raise (OptimisticLockingFailed (key_of t) (DocumentRevisionError msg)), s'))
  /\ (forall msg result s'',
         db_update db collection_name (to_doc t) s
         = (Raise (DocumentUpdateError 1202 msg), s') ->
         db_insert db collection_name (to_doc t) s' = (Ok result, s'') ->
         update t s = (Ok (take_revision t result), s''))
  /\ (forall code msg,
         db_update db collection_name (to_doc t) s
         = (Raise (DocumentUpdateError code msg), s') ->
         code <> 1202%Z ->
         update t s = (Raise (DocumentUpdateError code msg), s')).
Proof.
  split; [|split].
  - intros msg Hu. now apply update_stale_revision.
  - intros msg result s'' Hu Hi.
    rewrite (update_not_found t s s' msg Hu). unfold bind. now rewrite Hi.
  - intros code msg Hu Hne. apply update_other_error; [exact Hu | discriminate |].
    intros msg' Heq. injection Heq as -> _. now apply Hne.
Qed.

End ArangoEntityDb_update.

(** ** The config handler *)

Section ConfigHandlerService_facts.
Context {S : Type}.
Variable self : ConfigHandlerService S.

#[local] Abbreviation model_in w := (from_kinds self (all (model_db self) (db w))).
#[local] Abbreviation task_for w cfg_id final_config :=
  (validate_config_task (uuid_str self (uuid_count w)) cfg_id final_config).

(** [coerce_and_check_model], outcome by outcome. *)
Lemma coerce_and_check_model_eq (cfg_id : string) (config : Json) (validate : bool) (w : World S) :
  coerce_and_check_model self cfg_id config validate w =
  match (if validate then coerce_sections (model_in w) config [] else Ok config) with
  | Raise e => (Raise e, w)
  | Ok final_config =>
      match get (validation_db self) cfg_id (db w) with
      | Some v =>
          if ConfigValidation.external_validation v && validate
          then
            let w1 := push_task (task_for w cfg_id final_config) (next_uuid w) in
            match task_result self (task_for w cfg_id final_config) with
            | Ok _ => (Ok final_config, w1)
            | Raise e => (Raise e, w1)
            end
          else (Ok final_config, w)
      | None => (Ok final_config, w)
      end
  end.
Proof.
  unfold coerce_and_check_model, get_configs_model, acknowledge_config_change,
    draw_uuid, add_task, await. unfold_coro.
  destruct validate; cbn beta iota.
  - destruct (coerce_sections (model_in w) config []) as [fc|e]; [|reflexivity].
    destruct (get (validation_db self) cfg_id (db w)) as [v|]; [|reflexivity].
    destruct (ConfigValidation.external_validation v); [|reflexivity].
    cbn. now destruct (task_result self _).
  - destruct (get (validation_db self) cfg_id (db w)) as [v|]; [|reflexivity].
    now rewrite andb_false_r.
Qed.

(** Validation reads the database and may hand a task to the queue; it
    writes nothing and emits nothing. *)
Lemma coerce_and_check_model_frame (cfg_id : string) (config : Json) (validate : bool)
    (w w1 : World S) (r : outcome Json) :
  coerce_and_check_model self cfg_id config validate w = (r, w1) ->
  db w1 = db w /\ message_bus w1 = message_bus w.
Proof.
  rewrite coerce_and_check_model_eq.
  destruct (if validate then _ else _) as [fc|e]; [|now intros [= <- <-]].
  destruct (get (validation_db self) cfg_id (db w)) as [v|]; [|now intros [= <- <-]].
  destruct (_ && _); [|now intros [= <- <-]].
  cbn zeta. destruct (task_result self _); now intros [= <- <-].
Qed.

Lemma validation_fails_raises (cfg_id : string) (config : Json) (w : World S) (e : exn) :
  validation_fails self cfg_id config w e ->
  exists w1, coerce_and_check_model self cfg_id config true w = (Raise e, w1).
Proof.
  intros Hfail. rewrite coerce_and_check_model_eq.
  destruct Hfail as [e Hc | fc v e Hc Hv Hext Hrej].
  - rewrite Hc. now exists w.
  - rewrite Hc, Hv, Hext. cbn. rewrite Hrej. eauto.
Qed.

(** The loop over the sections stops at the first section whose kind
    rejects its value, with an [AttributeError] that names the section. *)
Lemma coerce_sections_raises (model : Model) (passed rest : Json) (key : string)
    (value : json) (kind : Kind) (ex : exn) (final_config : Json) :
  (forall final, exists final', coerce_sections model passed final = Ok final') ->
  model !! key = Some kind ->
  check_valid kind value = Raise ex ->
  is_Exception ex = true ->
  coerce_sections model (passed ++ (key, value) :: rest)%list final_config =
  Raise (AttributeError ("Error validating section " ++ key ++ ": " ++ str ex) ex).
Proof.
  intros Hpassed Hkind Hraise Hex.
  assert (Hgo : forall items final final',
             coerce_sections model items final = Ok final' ->
             forall more, coerce_sections model (items ++ more)%list final
                          = coerce_sections model more final').
  { induction items as [|[k v] items IH]; intros final final' Hok more; simpl in *.
    - now injection Hok as ->.
    - destruct (model !! k) as [kd|]; [|now apply IH].
      destruct (check_valid kd v) as [coerced|ex'].
      + now apply IH.
      + destruct (is_Exception ex'); discriminate. }
  destruct (Hpassed final_config) as [final' Hok].
  rewrite (Hgo _ _ _ Hok). simpl. now rewrite Hkind, Hraise, Hex.
Qed.

(** Without a kind for any of its keys a config passes the sections loop
    as it is. *)
Lemma coerce_sections_no_kind (model : Model) (items final_config : Json) :
  (forall kv, In kv items -> model !! fst kv = None) ->
  coerce_sections model items final_config = Ok (dict_spread final_config items).
Proof.
  revert final_config. induction items as [|[k v] items IH]; intros final Hnone; simpl.
  - reflexivity.
  - pose proof (Hnone (k, v) (or_introl eq_refl)) as Hk. simpl in Hk. rewrite Hk.
    rewrite IH by (intros kv Hin; apply Hnone; now right). reflexivity.
Qed.

#[local] Abbreviation written cfg coerced revision :=
  (update (cfg_db self) (ConfigEntity.mk (ConfigEntity.id cfg) coerced revision)).

(** The write and the event of [put_config] and [patch_config]. *)
Lemma write_and_emit (t : ConfigEntity.t) (w : World S) :
  (let* result := on_db (update (cfg_db self) t) in
   emit_event ConfigUpdated (id_and_revision result) ;; ret result) w =
  match update (cfg_db self) t (db w) with
  | (Ok result, s2) =>
      (Ok result,
       push_event {| message_type := ConfigUpdated; data := id_and_revision result |}
         (set_db s2 w))
  | (Raise e, s2) => (Raise e, set_db s2 w)
  end.
Proof.
  unfold on_db, emit_event. unfold_coro.
  now destruct (update (cfg_db self) t (db w)) as [[result|e] s2].
Qed.

(** [put_config] once validation has passed. *)
Lemma put_config_validated (cfg : ConfigEntity.t) (validate : bool) (w w1 : World S)
    (coerced : Json) :
  coerce_and_check_model self (ConfigEntity.id cfg) (ConfigEntity.config cfg) validate w
  = (Ok coerced, w1) ->
  put_config self cfg validate w =
  match get (cfg_db self) (ConfigEntity.id cfg) (db w) with
  | Some existing =>
      if py_eq (JDict (ConfigEntity.config existing)) (JDict (ConfigEntity.config cfg))
      then (Ok existing, w1)
      else
        match written cfg coerced (ConfigEntity.revision cfg) (db w) with
        | (Ok result, s2) =>
            (Ok result,
             push_event {| message_type := ConfigUpdated; data := id_and_revision result |}
               (set_db s2 w1))
        | (Raise e, s2) => (Raise e, set_db s2 w1)
        end
  | None =>
      match written cfg coerced (ConfigEntity.revision cfg) (db w) with
      | (Ok result, s2) =>
          (Ok result,
           push_event {| message_type := ConfigUpdated; data := id_and_revision result |}
             (set_db s2 w1))
      | (Raise e, s2) => (Raise e, set_db s2 w1)
      end
  end.
Proof.
  intros Hv. destruct (coerce_and_check_model_frame _ _ _ _ _ _ Hv) as [Hdb _].
  unfold put_config. unfold bind at 1. rewrite Hv.
  unfold bind at 1. unfold gets at 1. rewrite Hdb.
  destruct (get (cfg_db self) (ConfigEntity.id cfg) (db w)) as [existing|].
  - unfold py_ne.
    destruct (py_eq (JDict (ConfigEntity.config existing)) (JDict (ConfigEntity.config cfg)));
      cbn [negb]; [reflexivity|].
    rewrite write_and_emit, Hdb. reflexivity.
  - rewrite write_and_emit, Hdb. reflexivity.
Qed.

Lemma put_config_not_validated (cfg : ConfigEntity.t) (validate : bool) (w w1 : World S)
    (e : exn) :
  coerce_and_check_model self (ConfigEntity.id cfg) (ConfigEntity.config cfg) validate w
  = (Raise e, w1) ->
  put_config self cfg validate w = (Raise e, w1).
Proof. intros Hv. unfold put_config. unfold bind at 1. now rewrite Hv. Qed.

#[local] Abbreviation current_config w cfg :=
  (match get (cfg_db self) (ConfigEntity.id cfg) (db w) with
   | Some c => ConfigEntity.config c
   | None => []
   end).
#[local] Abbreviation current_revision w cfg :=
  (match get (cfg_db self) (ConfigEntity.id cfg) (db w) with
   | Some c => ConfigEntity.revision c
   | None => None
   end).
#[local] Abbreviation merged w cfg :=
  (dict_spread (current_config w cfg) (ConfigEntity.config cfg)).

Lemma patch_config_not_validated (cfg : ConfigEntity.t) (w w1 : World S) (e : exn) :
  coerce_and_check_model self (ConfigEntity.id cfg) (merged w cfg) true w = (Raise e, w1) ->
  patch_config self cfg w = (Raise e, w1).
Proof.
  intros Hv. unfold patch_config. unfold bind at 1. unfold gets at 1.
  unfold bind at 1. now rewrite Hv.
Qed.

Lemma patch_config_validated (cfg : ConfigEntity.t) (w w1 : World S) (coerced : Json) :
  coerce_and_check_model self (ConfigEntity.id cfg) (merged w cfg) true w = (Ok coerced, w1) ->
  patch_config self cfg w =
  match written cfg coerced (current_revision w cfg) (db w) with
  | (Ok result, s2) =>
      (Ok result,
       push_event {| message_type := ConfigUpdated; data := id_and_revision result |}
         (set_db s2 w1))
  | (Raise e, s2) => (Raise e, set_db s2 w1)
  end.
Proof.
  intros Hv. destruct (coerce_and_check_model_frame _ _ _ _ _ _ Hv) as [Hdb _].
  unfold patch_config. unfold bind at 1. unfold gets at 1.
  unfold bind at 1. rewrite Hv. rewrite write_and_emit, Hdb. reflexivity.
Qed.

End ConfigHandlerService_facts.

Section ConfigHandlerService_claims.
Context {S : Type}.
Variable self : ConfigHandlerService S.

#[local] Abbreviation model_in w := (from_kinds self (all (model_db self) (db w))).
#[local] Abbreviation current_config w cfg :=
  (match get (cfg_db self) (ConfigEntity.id cfg) (db w) with
   | Some c => ConfigEntity.config c
   | None => []
   end).
#[local] Abbreviation current_revision w cfg :=
  (match get (cfg_db self) (ConfigEntity.id cfg) (db w) with
   | Some c => ConfigEntity.revision c
   | None => None
   end).
#[local] Abbreviation updated result :=
  {| message_type := ConfigUpdated; data := id_and_revision result |}.

(** C1, amended. [patch_config] merges the patch into the stored config at
    the top level only: the merge is right-biased, every key of the patch
    takes the value of the patch as it is (a dict replaces the stored dict,
    a falsy value replaces the stored value), every other key keeps the
    stored value. The merged config is what gets validated: an error of the
    validation is the error of the patch, and when the validation passes,
    its coerced result goes to the store under the stored revision; when the
    store accepts it, one [ConfigUpdated] event follows. *)
Theorem patch_config_top_level_merge (cfg : ConfigEntity.t) (w : World S) :
  nodup_keys (keys (ConfigEntity.config cfg)) = true ->
  let merged := dict_spread (current_config w cfg) (ConfigEntity.config cfg) in
  (forall key,
      dict_lookup merged key =
      match dict_lookup (ConfigEntity.config cfg) key with
      | Some right_value => Some right_value
      | None => dict_lookup (current_config w cfg) key
      end)
  /\ (forall e w1,
         coerce_and_check_model self (ConfigEntity.id cfg) merged true w = (Raise e, w1) ->
         patch_config self cfg w = (Raise e, w1))
  /\ (forall coerced w1,
         coerce_and_check_model self (ConfigEntity.id cfg) merged true w = (Ok coerced, w1) ->
         patch_config self cfg w =
         match update (cfg_db self)
                 (ConfigEntity.mk (ConfigEntity.id cfg) coerced (current_revision w cfg))
                 (db w) with
         | (Ok result, s2) => (Ok result, push_event (updated result) (set_db s2 w1))
         | (Raise e, s2) => (Raise e, set_db s2 w1)
         end).
Proof.
  intros Hnd merged. split; [|split].
  - intros key. now apply dict_lookup_spread.
  - intros e w1 Hv. now apply patch_config_not_validated.
  - intros coerced w1 Hv. now apply patch_config_validated.
Qed.

(** C2. For every config entity, if validation fails (the coercion of a
    section raises, or the external validator rejects the change), then
    [put_config] raises that error to its caller, and so does [patch_config]
    when the validation of the merged config fails; the database is left as
    it was, so the stored config is unchanged, and nothing is emitted on the
    message bus, so there is no [ConfigUpdated] event. *)
Theorem validation_failure_blocks_write (cfg : ConfigEntity.t) (w : World S) (e : exn) :
  (validation_fails self (ConfigEntity.id cfg) (ConfigEntity.config cfg) w e ->
   exists w1,
     put_config self cfg true w = (Raise e, w1)
     /\ db w1 = db w /\ message_bus w1 = message_bus w)
  /\ (validation_fails self (ConfigEntity.id cfg)
        (dict_spread (current_config w cfg) (ConfigEntity.config cfg)) w e ->
      exists w1,
        patch_config self cfg w = (Raise e, w1)
        /\ db w1 = db w /\ message_bus w1 = message_bus w).
Proof.
  split; intros Hfail; destruct (validation_fails_raises self _ _ _ _ Hfail) as [w1 Hv];
    exists w1; (split; [|exact (coerce_and_check_model_frame self _ _ _ _ _ _ Hv)]).
  - now apply put_config_not_validated.
  - now apply patch_config_not_validated.
Qed.

(** C3, amended. For every call to [put_config] whose validation passes:
    if a config with the same id is stored and its config equals the
    submitted one, the call returns the stored entity, leaves the database
    as it was and emits no event; otherwise the coerced config goes to the
    store's update with the revision of the caller, and when the store
    accepts it, the call returns the stored result and exactly one
    [ConfigUpdated] event with the id and the new revision is put on the
    bus; when the store raises (a stale revision), the call raises and no
    event is emitted. *)
Theorem put_config_compare_then_write (cfg : ConfigEntity.t) (validate : bool)
    (w w1 : World S) (coerced : Json) :
  coerce_and_check_model self (ConfigEntity.id cfg) (ConfigEntity.config cfg) validate w
  = (Ok coerced, w1) ->
  let write :=
    update (cfg_db self)
      (ConfigEntity.mk (ConfigEntity.id cfg) coerced (ConfigEntity.revision cfg)) (db w) in
  let unchanged :=
    match get (cfg_db self) (ConfigEntity.id cfg) (db w) with
    | Some existing =>
        py_eq (JDict (ConfigEntity.config existing)) (JDict (ConfigEntity.config cfg))
    | None => false
    end in
  db w1 = db w /\ message_bus w1 = message_bus w
  /\ (unchanged = true ->
      exists existing,
        get (cfg_db self) (ConfigEntity.id cfg) (db w) = Some existing
        /\ put_config self cfg validate w = (Ok existing, w1))
  /\ (unchanged = false ->
      forall result s2, write = (Ok result, s2) ->
        put_config self cfg validate w = (Ok result, push_event (updated result) (set_db s2 w1))
        /\ message_bus (push_event (updated result) (set_db s2 w1))
           = (message_bus w ++ [updated result])%list)
  /\ (unchanged = false ->
      forall e s2, write = (Raise e, s2) ->
        put_config self cfg validate w = (Raise e, set_db s2 w1)
        /\ message_bus (set_db s2 w1) = message_bus w).
Proof.
  intros Hv write unchanged.
  destruct (coerce_and_check_model_frame self _ _ _ _ _ _ Hv) as [Hdb Hbus].
  pose proof (put_config_validated self cfg validate w w1 coerced Hv) as Hput.
  subst write unchanged.
  split; [exact Hdb|]. split; [exact Hbus|].
  destruct (get (cfg_db self) (ConfigEntity.id cfg) (db w)) as [existing|].
  - destruct (py_eq (JDict (ConfigEntity.config existing)) (JDict (ConfigEntity.config cfg))).
    + split; [|split; discriminate]. intros _. now exists existing.
    + split; [discriminate|].
      split; intros _ r s2 Hw; rewrite Hw in Hput; (split; [exact Hput|]);
        simpl; now rewrite Hbus.
  - split; [discriminate|].
    split; intros _ r s2 Hw; rewrite Hw in Hput; (split; [exact Hput|]);
      simpl; now rewrite Hbus.
Qed.

(** C4, amended. For every put (validate not disabled) of a config whose id
    has a stored [ConfigValidation] with [external_validation=true] and
    whose sections all pass the coercion, exactly one worker task is handed
    to the queue: its name is [validate_config], its attributes are
    [{config_id: id}], its payload is [{task: validate_config, config: the
    coerced config}] and its timeout is 30 seconds. The put waits for the
    future of the task: a rejection by the worker is raised as the error of
    the put, with nothing written and nothing emitted; when the worker
    accepts, validation passes with the coerced config. *)
Theorem put_config_external_validation (cfg : ConfigEntity.t) (w : World S)
    (v : ConfigValidation.t) (final_config : Json) :
  get (validation_db self) (ConfigEntity.id cfg) (db w) = Some v ->
  ConfigValidation.external_validation v = true ->
  coerce_sections (model_in w) (ConfigEntity.config cfg) [] = Ok final_config ->
  let task :=
    {| task_id := uuid_str self (uuid_count w);
       name := WorkerTaskName.validate_config;
       attrs := [("config_id", ConfigEntity.id cfg)];
       task_data := [("task", JStr WorkerTaskName.validate_config);
                     ("config", JDict final_config)];
       timeout := {| seconds := 30 |} |} in
  task_queue (snd (put_config self cfg true w)) = (task_queue w ++ [task])%list
  /\ (forall e,
         task_result self task = Raise e ->
         fst (put_config self cfg true w) = Raise e
         /\ db (snd (put_config self cfg true w)) = db w
         /\ message_bus (snd (put_config self cfg true w)) = message_bus w)
  /\ (forall answer,
         task_result self task = Ok answer ->
         coerce_and_check_model self (ConfigEntity.id cfg) (ConfigEntity.config cfg) true w
         = (Ok final_config, push_task task (next_uuid w))).
Proof.
  intros Hval Hext Hcoerce task.
  assert (Hv : coerce_and_check_model self (ConfigEntity.id cfg)
                 (ConfigEntity.config cfg) true w
               = match task_result self task with
                 | Ok _ => (Ok final_config, push_task task (next_uuid w))
                 | Raise e => (Raise e, push_task task (next_uuid w))
                 end).
  { rewrite coerce_and_check_model_eq, Hcoerce, Hval, Hext. reflexivity. }
  destruct (task_result self task) as [answer|e] eqn:Hres.
  - split; [|split].
    + rewrite (put_config_validated self cfg true w _ final_config Hv).
      destruct (get (cfg_db self) (ConfigEntity.id cfg) (db w)) as [existing|];
        [destruct (py_eq _ _); [reflexivity|]|];
        now destruct (update (cfg_db self) _ (db w)) as [[r|e] s2].
    + discriminate.
    + intros answer' _. exact Hv.
  - rewrite (put_config_not_validated self cfg true w _ e Hv).
    split; [reflexivity|]. split; [|discriminate].
    intros e' [= <-]. now repeat split.
Qed.

(** With a stored revision and [revision=true] the trailer is there. *)
Lemma config_yaml_with_revision (cfg_id : string) (w : World S) (config : ConfigEntity.t)
    (rev : string) :
  get (cfg_db self) cfg_id (db w) = Some config ->
  ConfigEntity.revision config = Some rev ->
  rev <> EmptyString ->
  config_yaml self cfg_id true w
  = (Ok (Some (yaml_sections self (model_in w) (ConfigEntity.config config) 0 EmptyString
               ++ revision_trailer rev)), w).
Proof.
  intros Hsome Hrev Hne.
  unfold config_yaml, get_config, get_configs_model. unfold_coro.
  rewrite Hsome, Hrev. simpl.
  destruct (String.eqb_spec rev EmptyString); [contradiction | reflexivity].
Qed.

(** C10. For every config id without a stored entity, [config_yaml] returns
    [None] and raises nothing, with [revision] true or false; and for a
    stored entity that carries no revision, the answer with [revision=true]
    is the YAML of the sections alone, the same as with [revision=false]:
    the [_revision] trailer is left out. *)
Theorem config_yaml_missing_or_unrevisioned (cfg_id : string) (w : World S) :
  (get (cfg_db self) cfg_id (db w) = None ->
   forall revision, config_yaml self cfg_id revision w = (Ok None, w))
  /\ (forall config,
         get (cfg_db self) cfg_id (db w) = Some config ->
         ConfigEntity.revision config = None ->
         config_yaml self cfg_id true w
         = (Ok (Some (yaml_sections self (model_in w) (ConfigEntity.config config)
                        0 EmptyString)), w)
         /\ config_yaml self cfg_id true w = config_yaml self cfg_id false w).
Proof.
  split.
  - intros Hnone revision.
    unfold config_yaml, get_config. unfold_coro. now rewrite Hnone.
  - intros config Hsome Hrev.
    unfold config_yaml, get_config, get_configs_model. unfold_coro.
    rewrite Hsome, Hrev. now split.
Qed.

End ConfigHandlerService_claims.

(** ** The core-config listener and the restart loop *)

Section CoreConfigHandler_facts.
Import CoreConfigHandler.
Context {S : Type}.
Variable ResotoCoreConfigId : string.
Variable exit_fn : M S unit.

#[local] Abbreviation handle := (handle_events ResotoCoreConfigId exit_fn).
#[local] Abbreviation is_core := (is_core_config_update ResotoCoreConfigId).

(** Events are handled one after the other. *)
Lemma handle_events_app (before after : list Event) (s : S) :
  handle (before ++ after)%list s = (handle before ;; handle after) s.
Proof.
  revert s. induction before as [|event before IH]; intros s.
  - reflexivity.
  - cbn [handle_events app]. destruct (is_core event).
    + unfold bind. destruct (exit_fn s) as [[[]|e] s']; [|reflexivity].
      rewrite IH. reflexivity.
    + apply IH.
Qed.

Lemma handle_events_one (event : Event) (s : S) :
  handle [event] s = if is_core event then exit_fn s else (Ok tt, s).
Proof.
  cbn [handle_events]. destruct (is_core event); [|reflexivity].
  unfold bind, ret. now destruct (exit_fn s) as [[[]|e] s'].
Qed.

(** Events for other ids pass without a call of [exit_fn]. *)
Lemma handle_events_other (events : list Event) (s : S) :
  Forall (fun event => is_core event = false) events ->
  handle events s = (Ok tt, s).
Proof.
  induction 1 as [|event events Hevent _ IH]; [reflexivity|].
  cbn [handle_events]. now rewrite Hevent.
Qed.

End CoreConfigHandler_facts.

Lemma subscribe_types (message_types : list CoreMessage) (emitted : list Event) (event : Event) :
  In event (CoreConfigHandler.subscribe message_types emitted) ->
  In event emitted
  /\ existsb (CoreMessage_eqb (message_type event)) message_types = true.
Proof. unfold CoreConfigHandler.subscribe. now rewrite filter_In. Qed.

(** A [RestartService] out of [run_process] is answered by one more turn
    of the loop, which enters [run_process] again. *)
Lemma run_turn_restart (run_process : nat -> outcome unit) (sv : Main.supervisor)
    (reason : string) :
  Main.state sv = Main.Looping ->
  run_process (Main.entered sv) = Raise (RestartService reason) ->
  Main.run_turn run_process sv =
  {| Main.entered := Datatypes.S (Main.entered sv);
     Main.printed := (Main.printed sv ++ [Main.restart_banner reason])%list;
     Main.state := Main.Looping |}.
Proof. intros Hloop Hraise. unfold Main.run_turn. now rewrite Hloop, Hraise. Qed.

Lemma run_from_succ (run_process : nat -> outcome unit) (turns : nat) (sv : Main.supervisor) :
  Main.run_from run_process (Datatypes.S turns) sv
  = Main.run_turn run_process (Main.run_from run_process turns sv).
Proof.
  revert sv. induction turns as [|turns IH]; intros sv; [reflexivity|].
  cbn [Main.run_from] in *. now rewrite <- IH.
Qed.

(** C8. Whenever the core-config listener, having handled the events before
    without an exception, receives a [ConfigUpdated] event whose id equals
    the core-config id, it invokes [exit_fn] once; an event with any other id
    invokes nothing, and a whole series of such events leaves the count of
    invocations where it was. The default [exit_fn] raises [RestartService],
    which ends the listener; and when [run_process] ends with
    [RestartService], the loop of [run] prints the banner and enters
    [run_process] again. *)
Theorem core_config_update_invokes_exit_fn {S : Type} (ResotoCoreConfigId : string)
    (exit_fn : M S unit) (before : list Event) (event : Event) (s s1 : S) (n : nat) :
  let handle := CoreConfigHandler.handle_events ResotoCoreConfigId
                  (CoreConfigHandler.counted exit_fn) in
  let is_core := CoreConfigHandler.is_core_config_update ResotoCoreConfigId in
  handle before (s, 0) = (Ok tt, (s1, n)) ->
  (is_core event = true ->
   handle (before ++ [event])%list (s, 0)
   = (fst (exit_fn s1), (snd (exit_fn s1), Datatypes.S n)))
  /\ (is_core event = false ->
      handle (before ++ [event])%list (s, 0) = (Ok tt, (s1, n)))
  /\ (forall others,
         Forall (fun other => is_core other = false) others ->
         handle (before ++ others)%list (s, 0) = (Ok tt, (s1, n)))
  /\ (is_core event = true ->
      forall after (s' : S),
        CoreConfigHandler.handle_events ResotoCoreConfigId
          CoreConfigHandler.default_exit_fn (event :: after) s'
        = (Raise (RestartService "resotocore config changed."), s'))
  /\ (forall run_process turns reason,
         Main.state (Main.run run_process turns) = Main.Looping ->
         run_process (Main.entered (Main.run run_process turns))
         = Raise (RestartService reason) ->
         Main.state (Main.run run_process (Datatypes.S turns)) = Main.Looping
         /\ Main.entered (Main.run run_process (Datatypes.S turns))
            = Datatypes.S (Main.entered (Main.run run_process turns))).
Proof.
  intros handle is_core Hbefore. subst handle is_core.
  repeat split.
  - intros Hcore. rewrite handle_events_app. unfold bind at 1. rewrite Hbefore.
    rewrite handle_events_one, Hcore. unfold CoreConfigHandler.counted. simpl.
    now destruct (exit_fn s1).
  - intros Hother. rewrite handle_events_app. unfold bind at 1. rewrite Hbefore.
    now rewrite handle_events_one, Hother.
  - intros others Hothers. rewrite handle_events_app. unfold bind at 1.
    rewrite Hbefore. now apply handle_events_other.
  - intros Hcore after s'. cbn [CoreConfigHandler.handle_events]. now rewrite Hcore.
  - unfold Main.run in *. rewrite run_from_succ.
    now rewrite (run_turn_restart run_process _ reason).
  - unfold Main.run in *. rewrite run_from_succ.
    now rewrite (run_turn_restart run_process _ reason).
Qed.

(** ** The claims on the in-memory handler *)

(** C1 as stated fails. The stored config is
    [{"a": {"x": 1}, "debug": True}], the patch is
    [{"a": {"y": 2}, "debug": False}]: [patch_config] writes the patch as it
    is, where [deep_merge] keeps ["x"] under ["a"] and keeps [debug] true. *)
Lemma patch_config_is_not_deep_merge :
  get (cfg_db InMemory.accepting) "cfg" (db InMemory.world_nested)
  = Some (ConfigEntity.mk "cfg" InMemory.nested (Some "ri"))
  /\ fst (patch_config InMemory.accepting
            (ConfigEntity.mk "cfg" InMemory.nested_patch None) InMemory.world_nested)
     = Ok (ConfigEntity.mk "cfg" InMemory.nested_patch (Some "rii"))
  /\ get (cfg_db InMemory.accepting) "cfg"
       (db (snd (patch_config InMemory.accepting
                   (ConfigEntity.mk "cfg" InMemory.nested_patch None)
                   InMemory.world_nested)))
     = Some (ConfigEntity.mk "cfg" InMemory.nested_patch (Some "rii"))
  /\ deep_merge InMemory.nested InMemory.nested_patch
     = [("a", JDict [("x", JInt 1); ("y", JInt 2)]); ("debug", JBool true)]
  /\ py_eq (JDict InMemory.nested_patch)
       (JDict (deep_merge InMemory.nested InMemory.nested_patch)) = false.
Proof. repeat split; vm_compute; reflexivity. Qed.

Lemma patch_config_top_level_merge_witness :
  nodup_keys (keys InMemory.nested_patch) = true
  /\ dict_lookup (dict_spread InMemory.nested InMemory.nested_patch) "a"
     = Some (JDict [("y", JInt 2)])
  /\ fst (patch_config InMemory.accepting
            (ConfigEntity.mk "cfg" InMemory.nested_patch None) InMemory.world_nested)
     = Ok (ConfigEntity.mk "cfg" InMemory.nested_patch (Some "rii")).
Proof.
  destruct (patch_config_top_level_merge InMemory.accepting
              (ConfigEntity.mk "cfg" InMemory.nested_patch None)
              InMemory.world_nested eq_refl) as (Hkeys & _ & Hwrite).
  split; [reflexivity|]. split.
  - exact (Hkeys "a").
  - rewrite (Hwrite InMemory.nested_patch InMemory.world_nested eq_refl).
    vm_compute. reflexivity.
Defined.

(** The scenario of the spec: the id asks for external validation and the
    worker answers with the error ["bad value"], on a put and on a patch;
    and a put whose section [a] is no integer. *)
Lemma validation_failure_blocks_write_witness :
  (exists w1,
      put_config InMemory.rejecting (ConfigEntity.mk "cfg" [("a", JInt 2)] None) true
        InMemory.world_validated
      = (Raise (Exception_ "bad value"), w1)
      /\ db w1 = db InMemory.world_validated
      /\ message_bus w1 = message_bus InMemory.world_validated)
  /\ (exists w1,
         patch_config InMemory.rejecting (ConfigEntity.mk "cfg" [("b", JInt 2)] None)
           InMemory.world_validated
         = (Raise (Exception_ "bad value"), w1)
         /\ db w1 = db InMemory.world_validated
         /\ message_bus w1 = message_bus InMemory.world_validated)
  /\ (exists w1,
         put_config InMemory.typed (ConfigEntity.mk "cfg" [("a", JStr "one")] None) true
           InMemory.world_validated
         = (Raise (AttributeError "Error validating section a: expected int"
                     (Exception_ "expected int")), w1)
         /\ db w1 = db InMemory.world_validated
         /\ message_bus w1 = message_bus InMemory.world_validated).
Proof.
  split; [|split].
  - apply (proj1 (validation_failure_blocks_write InMemory.rejecting
                    (ConfigEntity.mk "cfg" [("a", JInt 2)] None)
                    InMemory.world_validated (Exception_ "bad value"))).
    apply (validator_rejects InMemory.rejecting "cfg" [("a", JInt 2)]
             InMemory.world_validated [("a", JInt 2)]
             (ConfigValidation.mk "cfg" true)); reflexivity.
  - apply (proj2 (validation_failure_blocks_write InMemory.rejecting
                    (ConfigEntity.mk "cfg" [("b", JInt 2)] None)
                    InMemory.world_validated (Exception_ "bad value"))).
    apply (validator_rejects InMemory.rejecting "cfg" [("a", JInt 1); ("b", JInt 2)]
             InMemory.world_validated [("a", JInt 1); ("b", JInt 2)]
             (ConfigValidation.mk "cfg" true)); reflexivity.
  - apply (proj1 (validation_failure_blocks_write InMemory.typed
                    (ConfigEntity.mk "cfg" [("a", JStr "one")] None)
                    InMemory.world_validated
                    (AttributeError "Error validating section a: expected int"
                       (Exception_ "expected int")))).
    apply coercion_raises. reflexivity.
Defined.

(** C3 as stated fails. The stored config equals the submitted one, and
    the call is no no-op that returns the stored entity: validation comes
    first, the worker rejects, and the call raises. *)
Lemma put_config_unchanged_is_validated_first :
  get (cfg_db InMemory.rejecting) "cfg" (db InMemory.world_validated)
  = Some (ConfigEntity.mk "cfg" InMemory.flat (Some "ri"))
  /\ py_eq (JDict InMemory.flat) (JDict InMemory.flat) = true
  /\ fst (put_config InMemory.rejecting (ConfigEntity.mk "cfg" InMemory.flat None) true
            InMemory.world_validated)
     = Raise (Exception_ "bad value")
  /\ fst (put_config InMemory.rejecting (ConfigEntity.mk "cfg" [("a", JInt 2)] None) true
            InMemory.world_validated)
     = Raise (Exception_ "bad value")
  /\ message_bus
       (snd (put_config InMemory.rejecting (ConfigEntity.mk "cfg" [("a", JInt 2)] None)
               true InMemory.world_validated)) = [].
Proof. repeat split; vm_compute; reflexivity. Qed.

(** A put that changes the stored config, a put of the stored config, and
    a put with a stale revision. *)
Lemma put_config_compare_then_write_witness :
  (fst (put_config InMemory.accepting
          (ConfigEntity.mk "cfg" InMemory.nested_patch (Some "ri")) true
          InMemory.world_nested)
   = Ok (ConfigEntity.mk "cfg" InMemory.nested_patch (Some "rii"))
   /\ message_bus
        (snd (put_config InMemory.accepting
                (ConfigEntity.mk "cfg" InMemory.nested_patch (Some "ri")) true
                InMemory.world_nested))
      = [{| message_type := ConfigUpdated;
            data := [("id", JStr "cfg"); ("revision", JStr "rii")] |}])
  /\ put_config InMemory.accepting (ConfigEntity.mk "cfg" InMemory.nested None) true
       InMemory.world_nested
     = (Ok (ConfigEntity.mk "cfg" InMemory.nested (Some "ri")), InMemory.world_nested)
  /\ (fst (put_config InMemory.accepting
             (ConfigEntity.mk "cfg" InMemory.nested_patch (Some "stale")) true
             InMemory.world_nested)
      = Raise (OptimisticLockingFailed "cfg" (DocumentRevisionError "conflict"))
      /\ message_bus
           (snd (put_config InMemory.accepting
                   (ConfigEntity.mk "cfg" InMemory.nested_patch (Some "stale")) true
                   InMemory.world_nested)) = []).
Proof.
  split; [|split].
  - destruct (put_config_compare_then_write InMemory.accepting
                (ConfigEntity.mk "cfg" InMemory.nested_patch (Some "ri")) true
                InMemory.world_nested InMemory.world_nested InMemory.nested_patch eq_refl)
      as (_ & _ & _ & Hwrite & _).
    destruct (Hwrite eq_refl (ConfigEntity.mk "cfg" InMemory.nested_patch (Some "rii"))
                (snd (update (cfg_db InMemory.accepting)
                        (ConfigEntity.mk "cfg" InMemory.nested_patch (Some "ri"))
                        (db InMemory.world_nested))) eq_refl) as [Hput Hbus].
    split; [exact (f_equal fst Hput)|].
    exact (eq_trans (f_equal (fun r => message_bus (snd r)) Hput) Hbus).
  - destruct (put_config_compare_then_write InMemory.accepting
                (ConfigEntity.mk "cfg" InMemory.nested None) true
                InMemory.world_nested InMemory.world_nested InMemory.nested eq_refl)
      as (_ & _ & Hsame & _).
    destruct (Hsame eq_refl) as (existing & Hget & Hput).
    assert (Hexisting : Some existing
                        = Some (ConfigEntity.mk "cfg" InMemory.nested (Some "ri")))
      by (rewrite <- Hget; reflexivity).
    injection Hexisting as <-. exact Hput.
  - destruct (put_config_compare_then_write InMemory.accepting
                (ConfigEntity.mk "cfg" InMemory.nested_patch (Some "stale")) true
                InMemory.world_nested InMemory.world_nested InMemory.nested_patch eq_refl)
      as (_ & _ & _ & _ & Hstale).
    destruct (Hstale eq_refl
                (OptimisticLockingFailed "cfg" (DocumentRevisionError "conflict"))
                (db InMemory.world_nested) eq_refl) as [Hput Hbus].
    split; [exact (f_equal fst Hput)|].
    exact (eq_trans (f_equal (fun r => message_bus (snd r)) Hput) Hbus).
Defined.

(** C4 as stated fails. The payload of the submitted task is
    [{task, config}]: it has no [config_id], which travels in the
    attributes of the task. And with a section that fails the coercion, no
    task is submitted although the id asks for external validation. *)
Lemma validate_config_task_payload :
  task_queue
    (snd (put_config InMemory.accepting (ConfigEntity.mk "cfg" InMemory.flat None) true
            InMemory.world_validated))
  = [{| task_id := "r"; name := "validate_config";
        attrs := [("config_id", "cfg")];
        task_data := [("task", JStr "validate_config"); ("config", JDict InMemory.flat)];
        timeout := {| seconds := 30 |} |}]
  /\ dict_contains
       [("task", JStr "validate_config"); ("config", JDict InMemory.flat)] "config_id"
     = false
  /\ py_eq (JDict [("task", JStr "validate_config"); ("config", JDict InMemory.flat)])
       (JDict [("config_id", JStr "cfg"); ("config", JDict InMemory.flat)]) = false
  /\ get (validation_db InMemory.typed) "cfg" (db InMemory.world_validated)
     = Some (ConfigValidation.mk "cfg" true)
  /\ task_queue
       (snd (put_config InMemory.typed (ConfigEntity.mk "cfg" [("a", JStr "one")] None)
               true InMemory.world_validated)) = [].
Proof. repeat split; vm_compute; reflexivity. Qed.

(** A put under a rejecting worker, and the validation of the same put
    under an accepting one. *)
Lemma put_config_external_validation_witness :
  (task_queue
     (snd (put_config InMemory.rejecting (ConfigEntity.mk "cfg" [("a", JInt 2)] None)
             true InMemory.world_validated))
   = [{| task_id := "r"; name := "validate_config";
         attrs := [("config_id", "cfg")];
         task_data := [("task", JStr "validate_config");
                       ("config", JDict [("a", JInt 2)])];
         timeout := {| seconds := 30 |} |}]
   /\ fst (put_config InMemory.rejecting (ConfigEntity.mk "cfg" [("a", JInt 2)] None)
             true InMemory.world_validated)
      = Raise (Exception_ "bad value"))
  /\ fst (coerce_and_check_model InMemory.accepting "cfg" [("a", JInt 2)] true
            InMemory.world_validated)
     = Ok [("a", JInt 2)].
Proof.
  split.
  - destruct (put_config_external_validation InMemory.rejecting
                (ConfigEntity.mk "cfg" [("a", JInt 2)] None) InMemory.world_validated
                (ConfigValidation.mk "cfg" true) [("a", JInt 2)]
                eq_refl eq_refl eq_refl) as (Hqueue & Hreject & _).
    split; [exact Hqueue|].
    exact (proj1 (Hreject (Exception_ "bad value") eq_refl)).
  - destruct (put_config_external_validation InMemory.accepting
                (ConfigEntity.mk "cfg" [("a", JInt 2)] None) InMemory.world_validated
                (ConfigValidation.mk "cfg" true) [("a", JInt 2)]
                eq_refl eq_refl eq_refl) as (_ & _ & Haccept).
    exact (f_equal fst (Haccept (PJson JNull) eq_refl)).
Defined.

Lemma config_yaml_missing_or_unrevisioned_witness :
  get (cfg_db InMemory.unrevisioned) "none" (db (InMemory.world InMemory.empty)) = None
  /\ config_yaml InMemory.unrevisioned "none" true (InMemory.world InMemory.empty)
     = (Ok None, InMemory.world InMemory.empty)
  /\ get (cfg_db InMemory.unrevisioned) "cfg" (db (InMemory.world InMemory.empty))
     = Some (ConfigEntity.mk "cfg" InMemory.flat None)
  /\ config_yaml InMemory.unrevisioned "cfg" true (InMemory.world InMemory.empty)
     = config_yaml InMemory.unrevisioned "cfg" false (InMemory.world InMemory.empty).
Proof.
  destruct (config_yaml_missing_or_unrevisioned InMemory.unrevisioned "none"
              (InMemory.world InMemory.empty)) as [Hmissing _].
  destruct (config_yaml_missing_or_unrevisioned InMemory.unrevisioned "cfg"
              (InMemory.world InMemory.empty)) as [_ Hstored].
  split; [reflexivity|]. split; [exact (Hmissing eq_refl true)|].
  split; [reflexivity|].
  exact (proj2 (Hstored (ConfigEntity.mk "cfg" InMemory.flat None) eq_refl eq_refl)).
Defined.

(** ** [ArangoEntityDb.update] on the in-memory database *)

Lemma key_of_to_doc {T : Type} `{Entity T} (key_of : T -> string) (t : T) :
  InMemory.key_of_doc (ArangoEntityDb.to_doc key_of t) = key_of t.
Proof.
  unfold InMemory.key_of_doc, ArangoEntityDb.to_doc, dict_get.
  rewrite dict_lookup_set. now rewrite String.eqb_refl.
Qed.

(** On the in-memory database the update of a document that is not there
    inserts it and returns. *)
Lemma update_missing_inserts {T : Type} `{Entity T} (collection_name : string)
    (key_of : T -> string) (t : T) (s : InMemory.store) :
  InMemory.mem_get collection_name (key_of t) s = None ->
  exists result s',
    ArangoEntityDb.update InMemory.arango collection_name key_of t s
    = (Ok (ArangoEntityDb.take_revision t result), s')
    /\ InMemory.mem_get collection_name (key_of t) s'
       = Some (dict_set (ArangoEntityDb.to_doc key_of t) "_rev" (dict_get result "_rev")).
Proof.
  intros Hmissing. unfold InMemory.mem_get in Hmissing.
  assert (Hupdate : db_update InMemory.arango collection_name
                      (ArangoEntityDb.to_doc key_of t) s
                    = (Raise (DocumentUpdateError 1202 "document not found"), s)).
  { change (db_update InMemory.arango) with InMemory.mem_update.
    unfold InMemory.mem_update. now rewrite key_of_to_doc, Hmissing. }
  assert (Hinsert : db_insert InMemory.arango collection_name
                      (ArangoEntityDb.to_doc key_of t) s
                    = (Ok (fst (InMemory.write collection_name
                                  (ArangoEntityDb.to_doc key_of t) s)),
                       snd (InMemory.write collection_name
                              (ArangoEntityDb.to_doc key_of t) s))).
  { change (db_insert InMemory.arango) with InMemory.mem_insert.
    unfold InMemory.mem_insert. rewrite key_of_to_doc, Hmissing.
    now destruct (InMemory.write _ _ _). }
  eexists. eexists. split.
  - rewrite (update_not_found InMemory.arango collection_name key_of t s s _ Hupdate).
    unfold bind. rewrite Hinsert. reflexivity.
  - unfold InMemory.mem_get, InMemory.write. cbn.
    rewrite key_of_to_doc. now rewrite lookup_insert_eq.
Qed.

Lemma update_revision_and_missing_witness :
  fst (ArangoEntityDb.update InMemory.arango "configs" ConfigEntity.id
         (ConfigEntity.mk "cfg" InMemory.flat (Some "stale"))
         (db InMemory.world_validated))
  = Raise (OptimisticLockingFailed "cfg" (DocumentRevisionError "conflict"))
  /\ fst (ArangoEntityDb.update InMemory.arango "configs" ConfigEntity.id
            (ConfigEntity.mk "new" InMemory.flat None) (db InMemory.world_validated))
     = Ok (ConfigEntity.mk "new" InMemory.flat (Some "riii"))
  /\ fst (ArangoEntityDb.update
            (InMemory.failing_arango (DocumentUpdateError 1200 "write-write conflict"))
            "configs" ConfigEntity.id
            (ConfigEntity.mk "cfg" InMemory.flat None) (db InMemory.world_validated))
     = Raise (DocumentUpdateError 1200 "write-write conflict").
Proof.
  split; [|split].
  - pose proof (update_revision_and_missing InMemory.arango "configs" ConfigEntity.id
                  (ConfigEntity.mk "cfg" InMemory.flat (Some "stale"))
                  (db InMemory.world_validated) (db InMemory.world_validated))
      as (Hstale & _ & _).
    assert (Hupdate :
              db_update InMemory.arango "configs"
                (ArangoEntityDb.to_doc ConfigEntity.id
                   (ConfigEntity.mk "cfg" InMemory.flat (Some "stale")))
                (db InMemory.world_validated)
              = (Raise (DocumentRevisionError "conflict"), db InMemory.world_validated))
      by reflexivity.
    exact (f_equal fst (Hstale "conflict" Hupdate)).
  - pose proof (update_revision_and_missing InMemory.arango "configs" ConfigEntity.id
                  (ConfigEntity.mk "new" InMemory.flat None)
                  (db InMemory.world_validated) (db InMemory.world_validated))
      as (_ & Hmissing & _).
    assert (Hupdate :
              db_update InMemory.arango "configs"
                (ArangoEntityDb.to_doc ConfigEntity.id
                   (ConfigEntity.mk "new" InMemory.flat None))
                (db InMemory.world_validated)
              = (Raise (DocumentUpdateError 1202 "document not found"),
                 db InMemory.world_validated))
      by reflexivity.
    assert (Hinsert :
              db_insert InMemory.arango "configs"
                (ArangoEntityDb.to_doc ConfigEntity.id
                   (ConfigEntity.mk "new" InMemory.flat None))
                (db InMemory.world_validated)
              = (Ok [("_key", JStr "new"); ("_rev", JStr "riii")],
                 snd (InMemory.write "configs"
                        (ArangoEntityDb.to_doc ConfigEntity.id
                           (ConfigEntity.mk "new" InMemory.flat None))
                        (db InMemory.world_validated))))
      by reflexivity.
    exact (f_equal fst (Hmissing _ _ _ Hupdate Hinsert)).
  - pose proof (update_revision_and_missing
                  (InMemory.failing_arango
                     (DocumentUpdateError 1200 "write-write conflict"))
                  "configs" ConfigEntity.id
                  (ConfigEntity.mk "cfg" InMemory.flat None)
                  (db InMemory.world_validated) (db InMemory.world_validated))
      as (_ & _ & Hother).
    assert (Hcode : 1200%Z <> 1202%Z) by discriminate.
    exact (f_equal fst (Hother 1200%Z "write-write conflict" eq_refl Hcode)).
Defined.

(** A put of the core config makes the listener call [exit_fn]; puts of
    another config do not. With the default [exit_fn] the listener ends
    with [RestartService], and [run] goes round again. *)
Lemma core_config_update_invokes_exit_fn_witness :
  CoreConfigHandler.handle_events InMemory.core_id
    (CoreConfigHandler.counted InMemory.quiet_exit_fn)
    (InMemory.other_events ++ InMemory.core_events)%list (tt, 0)
  = (Ok tt, (tt, 1))
  /\ CoreConfigHandler.handle_events InMemory.core_id
       (CoreConfigHandler.counted InMemory.quiet_exit_fn)
       (InMemory.other_events ++ InMemory.other_events)%list (tt, 0)
     = (Ok tt, (tt, 0))
  /\ CoreConfigHandler.handle_events InMemory.core_id
       (CoreConfigHandler.counted InMemory.quiet_exit_fn)
       (InMemory.other_events ++ InMemory.other_events ++ InMemory.other_events)%list
       (tt, 0)
     = (Ok tt, (tt, 0))
  /\ CoreConfigHandler.handle_events InMemory.core_id CoreConfigHandler.default_exit_fn
       (InMemory.core_events ++ InMemory.other_events)%list tt
     = (Raise (RestartService "resotocore config changed."), tt)
  /\ Main.state (Main.run InMemory.restart_once 1) = Main.Looping
  /\ Main.entered (Main.run InMemory.restart_once 1) = 1.
Proof.
  destruct (core_config_update_invokes_exit_fn InMemory.core_id InMemory.quiet_exit_fn
              InMemory.other_events
              {| message_type := ConfigUpdated;
                 data := [("id", JStr "resoto.core"); ("revision", JStr "ri")] |}
              tt tt 0 eq_refl)
    as (Hcore & _ & _ & Hdefault & Hrun).
  destruct (core_config_update_invokes_exit_fn InMemory.core_id InMemory.quiet_exit_fn
              InMemory.other_events
              {| message_type := ConfigUpdated;
                 data := [("id", JStr "cfg"); ("revision", JStr "ri")] |}
              tt tt 0 eq_refl)
    as (_ & Hother & Hothers & _ & _).
  split; [exact (Hcore eq_refl)|]. split; [exact (Hother eq_refl)|].
  split.
  { apply (Hothers (InMemory.other_events ++ InMemory.other_events)%list).
    repeat constructor. }
  split; [exact (Hdefault eq_refl InMemory.other_events tt)|].
  exact (Hrun InMemory.restart_once 0 "resotocore config changed." eq_refl eq_refl).
Defined.

(** ** Paths into JSON values *)

Section path_facts.
Import UtilMore.

Lemma split_not_nil (sep : ascii) (s : string) : split sep s <> [].
Proof.
  destruct s as [|c s]; simpl; [discriminate|].
  destruct (Ascii.eqb c sep); [discriminate|].
  destruct (split sep s); discriminate.
Qed.

Lemma value_at_null (path : list string) : path <> [] -> value_at JNull path = JNull.
Proof. destruct path; [congruence | reflexivity]. Qed.

Lemma dict_lookup_set_same (d : Json) (k : string) (v : json) :
  dict_lookup (dict_set d k v) k = Some v.
Proof. rewrite dict_lookup_set. now rewrite String.eqb_refl. Qed.

Lemma dict_lookup_set_other (d : Json) (k k' : string) (v : json) :
  k' <> k -> dict_lookup (dict_set d k v) k' = dict_lookup d k'.
Proof.
  intros Hne. rewrite dict_lookup_set.
  destruct (String.eqb_spec k' k); [contradiction | reflexivity].
Qed.

Lemma value_at_set_at (element : json) (path : list string) (js : Json) :
  path <> [] -> value_at (JDict (set_at element js path)) path = element.
Proof.
  revert js. induction path as [|key rest IH]; intros js Hne; [congruence|].
  destruct rest as [|key' rest'].
  - cbn [set_at value_at]. now rewrite dict_lookup_set_same.
  - cbn [value_at]. change (set_at element js (key :: key' :: rest'))
      with (dict_set js key
              (JDict (set_at element
                        (if is_dict (dict_get js key) then as_dict (dict_get js key) else [])
                        (key' :: rest')))).
    rewrite dict_lookup_set_same. apply IH. discriminate.
Qed.

(** X1. What [set_value_in_path] has put under a path, [value_in_path] reads
    back from the dict it returns: for a path given as a list that is not
    empty and for every dotted name, whatever [js] held before. With an
    empty list as path [set_value_in_path] raises. *)
Theorem value_in_path_set_value_in_path (element : json)
    (path_or_name : list string + string) (js : option Json) :
  path_of path_or_name <> [] ->
  exists result,
    set_value_in_path element path_or_name js = Ok result
    /\ value_in_path (JDict result) path_or_name = element.
Proof.
  intros Hne. unfold set_value_in_path, value_in_path.
  destruct (path_of path_or_name) as [|key rest] eqn:Hpath; [congruence|].
  eexists. split; [reflexivity|]. now apply value_at_set_at.
Qed.

Lemma value_in_path_set_value_in_path_witness :
  exists result,
    set_value_in_path (JInt 8900) (inr "api.web.port")
      (Some [("api", JDict [("hosts", JList [])]); ("debug", JBool true)]) = Ok result
    /\ value_in_path (JDict result) (inr "api.web.port") = JInt 8900.
Proof.
  apply (value_in_path_set_value_in_path (JInt 8900) (inr "api.web.port")
           (Some [("api", JDict [("hosts", JList [])]); ("debug", JBool true)])).
  discriminate.
Defined.

(** Joining the parts of a name with dots gives the name back. *)
Lemma concat_split (name : string) : String.concat "." (split "." name) = name.
Proof.
  induction name as [|c name IH]; [reflexivity|].
  cbn [split]. pose proof (split_not_nil "." name) as Hnil.
  destruct (Ascii.eqb_spec c ".") as [->|Hne].
  - cbn [String.concat].
    destruct (split "." name) as [|w ws] eqn:Hs; [congruence|].
    now rewrite IH.
  - destruct (split "." name) as [|w ws] eqn:Hs; [congruence|].
    destruct ws as [|w' ws']; cbn [String.concat] in *; simpl; now rewrite <- IH.
Qed.

(** X2. A dotted name always gives a path that is not empty, so with a name
    [set_value_in_path] never raises, whatever the name (the empty name and
    names with empty parts too), and [value_in_path] reads the element back
    under the same name. *)
Theorem set_value_in_path_name (element : json) (name : string) (js : option Json) :
  exists result,
    set_value_in_path element (inr name) js = Ok result
    /\ value_in_path (JDict result) (inr name) = element.
Proof.
  unfold set_value_in_path, value_in_path. cbn [path_of].
  pose proof (split_not_nil "." name) as Hnil.
  destruct (split "." name) as [|key rest] eqn:Hpath; [congruence|].
  eexists. split; [reflexivity|]. apply value_at_set_at. discriminate.
Qed.

Lemma value_at_set_at_other (element : json) (common : list string)
    (key key' : string) (rest rest' : list string) (js : Json) :
  key' <> key ->
  value_at (JDict (set_at element js (common ++ key :: rest)%list))
    (common ++ key' :: rest')%list
  = value_at (JDict js) (common ++ key' :: rest')%list.
Proof.
  intros Hne. revert js. induction common as [|c common IH]; intros js.
  - cbn [app]. destruct rest as [|r rest]; cbn [set_at value_at];
      now rewrite dict_lookup_set_other.
  - cbn [app].
    assert (Hset : set_at element js (c :: (common ++ key :: rest)%list)
                   = dict_set js c
                       (JDict (set_at element
                                 (if is_dict (dict_get js c) then as_dict (dict_get js c)
                                  else [])
                                 (common ++ key :: rest)%list))).
    { destruct common; reflexivity. }
    rewrite Hset. cbn [value_at]. rewrite dict_lookup_set_same, IH.
    unfold dict_get. destruct (dict_lookup js c) as [v|]; [|now destruct common].
    destruct v; cbn [is_dict as_dict]; try reflexivity; now destruct common.
Qed.

(** X3. [set_value_in_path] leaves every path alone that parts from the
    path it sets: when two paths share a prefix and go on with different
    keys, the value read at the second is the same before and after the
    first was set, also where the set had to make new dicts on its way. *)
Theorem set_value_in_path_other_path (element : json) (common : list string)
    (key key' : string) (rest rest' : list string) (js : Json) :
  key' <> key ->
  exists result,
    set_value_in_path element (inl (common ++ key :: rest)%list) (Some js) = Ok result
    /\ value_in_path (JDict result) (inl (common ++ key' :: rest')%list)
       = value_in_path (JDict js) (inl (common ++ key' :: rest')%list).
Proof.
  intros Hne. unfold set_value_in_path, value_in_path. cbn [path_of].
  destruct (common ++ key :: rest)%list as [|k p] eqn:Hpath.
  - now destruct common.
  - eexists. split; [reflexivity|]. rewrite <- Hpath. now apply value_at_set_at_other.
Qed.

Lemma set_value_in_path_other_path_witness :
  exists result,
    set_value_in_path (JInt 1) (inl (["api"] ++ "port" :: [])%list)
      (Some [("api", JDict [("hosts", JList [JStr "localhost"])])]) = Ok result
    /\ value_in_path (JDict result) (inl (["api"] ++ "hosts" :: [])%list)
       = value_in_path (JDict [("api", JDict [("hosts", JList [JStr "localhost"])])])
           (inl (["api"] ++ "hosts" :: [])%list).
Proof.
  apply (set_value_in_path_other_path (JInt 1) ["api"] "port" "hosts" [] []
           [("api", JDict [("hosts", JList [JStr "localhost"])])]).
  discriminate.
Defined.

Lemma dict_lookup_pop (d : Json) (key k : string) :
  nodup_keys (keys d) = true ->
  dict_lookup (dict_pop d key) k =
  if String.eqb k key then None else dict_lookup d k.
Proof.
  induction d as [|[k0 v0] d IH]; intros Hnd.
  - simpl. now destruct (String.eqb k key).
  - simpl in Hnd. apply andb_prop in Hnd as [Hfresh Hnd].
    apply negb_true_iff, mem_false_iff in Hfresh.
    cbn [dict_pop fst dict_lookup].
    destruct (String.eqb_spec key k0) as [Hkey|Hkey].
    + subst k0. destruct (String.eqb_spec k key) as [Hk|Hk]; [|reflexivity].
      subst k. now apply dict_lookup_None.
    + cbn [dict_lookup]. rewrite IH by assumption.
      destruct (String.eqb_spec k k0) as [Hk|Hk]; [|reflexivity].
      subst k. destruct (String.eqb_spec k0 key); [congruence | reflexivity].
Qed.

Lemma keys_dict_pop_subset (d : Json) (key k : string) :
  In k (keys (dict_pop d key)) -> In k (keys d).
Proof.
  induction d as [|[k0 v0] d IH]; simpl; [tauto|].
  destruct (String.eqb key k0); simpl; tauto.
Qed.

Lemma nodup_keys_dict_pop (d : Json) (key : string) :
  nodup_keys (keys d) = true -> nodup_keys (keys (dict_pop d key)) = true.
Proof.
  induction d as [|[k0 v0] d IH]; intros Hnd; simpl; [reflexivity|].
  simpl in Hnd. apply andb_prop in Hnd as [Hfresh Hnd].
  destruct (String.eqb key k0); [assumption|].
  simpl. rewrite IH by assumption. rewrite andb_true_r.
  apply negb_true_iff, mem_false_iff. intros Hin.
  apply negb_true_iff, mem_false_iff in Hfresh. apply Hfresh.
  now apply keys_dict_pop_subset in Hin.
Qed.

Lemma wf_lookup (d : Json) (k : string) (v : json) :
  wf (JDict d) = true -> dict_lookup d k = Some v -> wf v = true.
Proof.
  intros Hwf Hl. simpl in Hwf. apply andb_prop in Hwf as [_ Hall].
  rewrite forallb_forall in Hall.
  induction d as [|[k0 v0] d IH]; simpl in Hl; [discriminate|].
  destruct (String.eqb k k0).
  - injection Hl as <-. apply (Hall (k0, v0)). now left.
  - apply IH; [|assumption]. intros x Hx. apply Hall. now right.
Qed.

Lemma value_at_del_at (path : list string) (current : json) :
  wf current = true -> path <> [] -> value_at (del_at current path) path = JNull.
Proof.
  revert current. induction path as [|key rest IH]; intros current Hwf Hne; [congruence|].
  cbn [del_at]. destruct current as [ | | | | |d]; try reflexivity.
  destruct (dict_lookup d key) as [child|] eqn:Hl.
  - destruct rest as [|key' rest'].
    + cbn [value_at]. rewrite dict_lookup_pop, String.eqb_refl; [reflexivity|].
      simpl in Hwf. now apply andb_prop in Hwf as [Hnd _].
    + set (path' := key' :: rest') in *.
      change (value_at
                (JDict (dict_set d key
                          (if truthy (del_at child path') then del_at child path'
                           else JNull)))
                (key :: path') = JNull).
      cbn [value_at]. rewrite dict_lookup_set_same.
      destruct (truthy (del_at child path')).
      * apply IH; [now apply (wf_lookup d key) | discriminate].
      * reflexivity.
  - cbn [value_at]. now rewrite Hl.
Qed.

(** X4. After [del_value_in_path(element, path)] with a path that is not
    empty, [value_in_path] finds nothing under the path in what is
    returned, for every Python value [element]. *)
Theorem value_in_path_del_value_in_path (element : json) (path : list string) :
  wf element = true -> path <> [] ->
  exists result,
    del_value_in_path element path = Ok result
    /\ value_in_path result (inl path) = JNull.
Proof.
  intros Hwf Hne. unfold del_value_in_path, value_in_path. cbn [path_of].
  destruct path as [|key rest]; [congruence|].
  eexists. split; [reflexivity|]. now apply value_at_del_at.
Qed.

Lemma value_in_path_del_value_in_path_witness :
  exists result,
    del_value_in_path
      (JDict [("api", JDict [("web", JDict [("port", JInt 8900)])]); ("debug", JInt 0)])
      ["api"; "web"; "port"] = Ok result
    /\ value_in_path result (inl ["api"; "web"; "port"]) = JNull.
Proof.
  apply (value_in_path_del_value_in_path
           (JDict [("api", JDict [("web", JDict [("port", JInt 8900)])]);
                   ("debug", JInt 0)])
           ["api"; "web"; "port"]); [reflexivity | discriminate].
Defined.

(** X5. [pop_keys(d, keys)] holds none of the given keys and holds every
    other key of [d] with its value. *)
Theorem pop_keys_lookup (d : Json) (ks : list string) (k : string) :
  nodup_keys (keys d) = true ->
  dict_lookup (pop_keys d ks) k = if mem k ks then None else dict_lookup d k.
Proof.
  unfold pop_keys. revert d. induction ks as [|k0 ks IH]; intros d Hnd.
  - reflexivity.
  - cbn [fold_left]. rewrite IH by now apply nodup_keys_dict_pop.
    rewrite dict_lookup_pop by assumption.
    unfold mem. cbn [existsb]. fold (mem k ks).
    destruct (String.eqb k k0); cbn [orb]; [now destruct (mem k ks) | reflexivity].
Qed.

Lemma pop_keys_lookup_witness :
  dict_lookup (pop_keys [("a", JInt 1); ("b", JInt 2); ("c", JInt 3)] ["b"; "x"]) "b"
  = (if mem "b" ["b"; "x"] then None
     else dict_lookup [("a", JInt 1); ("b", JInt 2); ("c", JInt 3)] "b").
Proof.
  apply (pop_keys_lookup [("a", JInt 1); ("b", JInt 2); ("c", JInt 3)] ["b"; "x"] "b").
  reflexivity.
Defined.

End path_facts.

(** ** Lists *)

Section list_facts.
Import UtilMore.
Context {A : Type}.

Lemma interleave_combine (elements : list A) :
  interleave elements = combine elements (tl elements).
Proof.
  unfold interleave. destruct elements as [|a [|b rest]]; reflexivity.
Qed.

Lemma nth_error_combine {B : Type} (xs : list A) (ys : list B) (i : nat) :
  nth_error (combine xs ys) i =
  match nth_error xs i, nth_error ys i with
  | Some x, Some y => Some (x, y)
  | _, _ => None
  end.
Proof.
  revert ys i. induction xs as [|x xs IH]; intros ys i.
  - now destruct i.
  - destruct ys as [|y ys].
    + destruct i; simpl; [reflexivity|]. now destruct (nth_error xs i).
    + destruct i; simpl; [reflexivity | apply IH].
Qed.

(** X6. [interleave] pairs every element with its successor: the pair at
    position [i] is made of the elements at [i] and [i + 1], there is one
    pair less than there are elements, and none below two elements. *)
Theorem interleave_pairs (elements : list A) (i : nat) :
  length (interleave elements) = Nat.pred (length elements)
  /\ nth_error (interleave elements) i =
     match nth_error elements i, nth_error elements (Datatypes.S i) with
     | Some a, Some b => Some (a, b)
     | _, _ => None
     end.
Proof.
  rewrite interleave_combine. split.
  - rewrite length_combine. destruct elements as [|a rest]; [reflexivity|].
    cbn [tl length Nat.pred]. lia.
  - rewrite nth_error_combine. destruct elements; [now destruct i | reflexivity].
Qed.

(** X7. [first] gives the earliest element the callable accepts, and
    [exist] is true when [first] finds one and false when no element is
    accepted. *)
Theorem first_is_earliest (f : A -> bool) (iterable : list A) :
  match first f iterable with
  | Some a =>
      exist f iterable = true
      /\ exists before after,
           iterable = (before ++ a :: after)%list
           /\ f a = true
           /\ Forall (fun b => f b = false) before
  | None =>
      exist f iterable = false /\ Forall (fun b => f b = false) iterable
  end.
Proof.
  induction iterable as [|a rest IH]; simpl.
  - split; [reflexivity | constructor].
  - destruct (f a) eqn:Hfa.
    + split; [reflexivity|]. exists [], rest. repeat split; [assumption | constructor].
    + destruct (first f rest) as [b|].
      * destruct IH as (Hex & before & after & -> & Hfb & Hbefore).
        split; [assumption|]. exists (a :: before), after.
        repeat split; [assumption | now constructor].
      * destruct IH as [Hex Hall]. split; [assumption | now constructor].
Qed.

End list_facts.

Section group_by_facts.
Import UtilMore.
Context {A K : Type}.
Variable key_eqb : K -> K -> bool.
Hypothesis key_eqb_spec : forall a b, reflect (a = b) (key_eqb a b).

Lemma group_append_item (v : list (K * list A)) (key k : K) (item : A) :
  group key_eqb (append_item key_eqb v key item) k =
  if key_eqb k key
  then Some (match group key_eqb v k with Some items => items | None => [] end ++ [item])%list
  else group key_eqb v k.
Proof.
  induction v as [|[k0 items] v IH]; simpl.
  - destruct (key_eqb k key); reflexivity.
  - destruct (key_eqb_spec key k0) as [->|Hne]; simpl.
    + destruct (key_eqb_spec k k0) as [->|Hne'].
      * destruct (key_eqb_spec k0 k0); [reflexivity | congruence].
      * destruct (key_eqb_spec k k0); [congruence | reflexivity].
    + destruct (key_eqb_spec k k0) as [->|Hne'].
      * destruct (key_eqb_spec k0 key); [congruence | reflexivity].
      * apply IH.
Qed.

Lemma group_fold (f : A -> K) (iterable : list A) (v : list (K * list A)) (k : K) :
  group key_eqb (fold_left (fun v item => append_item key_eqb v (f item) item) iterable v) k =
  match List.filter (fun item => key_eqb k (f item)) iterable with
  | [] => group key_eqb v k
  | items => Some (match group key_eqb v k with Some old => old | None => [] end ++ items)%list
  end.
Proof.
  revert v. induction iterable as [|item rest IH]; intros v; simpl.
  - reflexivity.
  - rewrite IH, group_append_item.
    destruct (key_eqb k (f item)); simpl.
    + destruct (List.filter _ rest); simpl; [reflexivity|]. now rewrite <- app_assoc.
    + reflexivity.
Qed.

(** X8. [group_by(f, iterable)] puts every item under the key [f] gives it
    and keeps the order of the items: under a key stand exactly the items
    with that key, in the order of the iterable, and a key no item has is
    not in the result. *)
Theorem group_by_groups (f : A -> K) (iterable : list A) (k : K) :
  group key_eqb (group_by key_eqb f iterable) k =
  match List.filter (fun item => key_eqb k (f item)) iterable with
  | [] => None
  | items => Some items
  end.
Proof. unfold group_by. rewrite group_fold. reflexivity. Qed.

End group_by_facts.

Lemma group_by_groups_witness :
  UtilMore.group Nat.eqb (UtilMore.group_by Nat.eqb String.length ["a"; "bc"; "d"; "ef"; "g"]) 1
  = Some ["a"; "d"; "g"].
Proof.
  exact (group_by_groups Nat.eqb Nat.eqb_spec String.length
           ["a"; "bc"; "d"; "ef"; "g"] 1).
Defined.

(** ** More on [deep_merge] *)

Section deep_merge_more.

(** X9. The empty dict is a right unit of [deep_merge]: [deep_merge(x, {})]
    is [x], for every Python dict [x]. *)
Theorem deep_merge_empty_right (x : Json) :
  wf (JDict x) = true ->
  deep_merge x [] = x /\ py_eq (JDict (deep_merge x [])) (JDict x) = true.
Proof.
  intros Hwf.
  assert (Heq : deep_merge x [] = x).
  { rewrite deep_merge_unfold. unfold union_keys. cbn [keys map List.filter].
    rewrite app_nil_r. simpl in Hwf. apply andb_prop in Hwf as [Hnd _].
    transitivity (map (fun k => (k, dict_get x k)) (keys x));
      [| now apply map_dict_get_keys].
    apply map_ext. intros k. reflexivity. }
  split; [exact Heq|]. rewrite Heq. now apply py_eq_refl.
Qed.

Lemma dict_contains_mem (d : Json) (k : string) : dict_contains d k = mem k (keys d).
Proof.
  unfold dict_contains. induction d as [|[k0 v0] d IH]; simpl; [reflexivity|].
  destruct (String.eqb k k0); [reflexivity | exact IH].
Qed.

Lemma mem_union_keys (left right : Json) (k : string) :
  mem k (union_keys left right) = mem k (keys left) || mem k (keys right).
Proof.
  apply Bool.eq_iff_eq_true.
  rewrite orb_true_iff, !mem_true_iff. apply union_keys_In.
Qed.

(** X10. The keys of [deep_merge(left, right)] are the keys of [left] and
    the keys of [right], and at a key where [right] holds a truthy value
    that is no dict, the result holds that value. *)
Theorem deep_merge_keys_and_truthy (left right : Json) (key : string) :
  dict_contains (deep_merge left right) key
  = dict_contains left key || dict_contains right key
  /\ (forall right_value,
         dict_lookup right key = Some right_value ->
         is_dict right_value = false -> truthy right_value = true ->
         dict_lookup (deep_merge left right) key = Some right_value).
Proof.
  split.
  - now rewrite !dict_contains_mem, keys_deep_merge, mem_union_keys.
  - intros right_value Hr Hd Ht. rewrite dict_lookup_deep_merge.
    assert (Hin : mem key (union_keys left right) = true).
    { rewrite mem_union_keys, <- !dict_contains_mem. unfold dict_contains at 2.
      rewrite Hr. apply orb_true_r. }
    rewrite Hin, merge_merge_values. unfold dict_get at 2. rewrite Hr.
    now rewrite merge_values_truthy.
Qed.

Lemma deep_merge_keys_and_truthy_witness :
  dict_lookup
    (deep_merge [("port", JInt 8900); ("debug", JBool true)]
       [("port", JInt 9955); ("debug", JBool false)]) "port"
  = Some (JInt 9955).
Proof.
  apply (proj2 (deep_merge_keys_and_truthy
                  [("port", JInt 8900); ("debug", JBool true)]
                  [("port", JInt 9955); ("debug", JBool false)] "port"));
    reflexivity.
Defined.

Lemma nodup_keys_NoDup (ks : list string) : nodup_keys ks = true <-> List.NoDup ks.
Proof.
  induction ks as [|k ks IH]; simpl.
  - split; [constructor | reflexivity].
  - rewrite andb_true_iff, negb_true_iff, mem_false_iff, IH. split.
    + intros [Hn Hnd]. now constructor.
    + intros Hnd. inversion Hnd. now split.
Qed.

Lemma nodup_union_keys (left right : Json) :
  nodup_keys (keys left) = true -> nodup_keys (keys right) = true ->
  nodup_keys (union_keys left right) = true.
Proof.
  rewrite !nodup_keys_NoDup. intros Hl Hr. unfold union_keys.
  apply List.NoDup_app.
  - exact Hl.
  - now apply List.NoDup_filter.
  - intros k Hin Hin'. apply filter_In in Hin' as [_ Hn].
    apply negb_true_iff, mem_false_iff in Hn. contradiction.
Qed.

Lemma wf_dict_get (d : Json) (k : string) : wf (JDict d) = true -> wf (dict_get d k) = true.
Proof.
  intros Hwf. unfold dict_get. destruct (dict_lookup d k) as [v|] eqn:Hl; [|reflexivity].
  simpl in Hwf. apply andb_prop in Hwf as [_ Hall]. rewrite forallb_forall in Hall.
  induction d as [|[k0 v0] d IH]; simpl in Hl; [discriminate|].
  destruct (String.eqb k k0).
  - injection Hl as <-. apply (Hall (k0, v0)). now left.
  - apply IH; try assumption. intros x Hx. apply Hall. now right.
Qed.

Lemma wf_as_dict (v : json) : wf v = true -> wf (JDict (as_dict v)) = true.
Proof. destruct v; try reflexivity. auto. Qed.

Lemma wf_merge_values (right_value : json) :
  forall left_value,
    wf left_value = true -> wf right_value = true ->
    wf (merge_values left_value right_value) = true.
Proof.
  induction right_value as [ | b | z | s | l IH | d IH ] using json_nested_ind;
    intros left_value Hl Hr;
    try (cbn [merge_values]; match goal with |- context [if ?c then _ else _] =>
                                destruct c end; assumption).
  rewrite merge_values_dict.
  pose proof (wf_as_dict left_value Hl) as Hld.
  set (left := as_dict left_value) in *.
  cbn [wf]. rewrite map_map. cbn [fst]. rewrite map_id.
  apply andb_true_iff. split.
  - simpl in Hr, Hld. apply andb_prop in Hr as [Hr _]. apply andb_prop in Hld as [Hld' _].
    now apply nodup_union_keys.
  - rewrite forallb_forall. intros [k v] Hin. apply in_map_iff in Hin as [k' [Heq _]].
    injection Heq as <- <-. cbn [snd]. rewrite merge_at_get.
    unfold dict_get at 2. destruct (dict_lookup d k') as [rv|] eqn:Hrv.
    + rewrite List.Forall_forall in IH.
      assert (Hin : In (k', rv) d).
      { clear - Hrv. induction d as [|[k0 v0] d IHd]; simpl in Hrv; [discriminate|].
        destruct (String.eqb_spec k' k0) as [->|]; [injection Hrv as <-; now left|].
        right. now apply IHd. }
      apply (IH (k', rv) Hin); [now apply wf_dict_get|].
      simpl in Hr. apply andb_prop in Hr as [_ Hall]. rewrite forallb_forall in Hall.
      now apply (Hall (k', rv)).
    + cbn [merge_values truthy]. now apply wf_dict_get.
Qed.

(** X11. [deep_merge] keeps Python dicts Python dicts: when neither side
    repeats a key, at any depth, the result repeats none. *)
Theorem deep_merge_wf (left right : Json) :
  wf (JDict left) = true -> wf (JDict right) = true ->
  wf (JDict (deep_merge left right)) = true.
Proof.
  intros Hl Hr. unfold deep_merge.
  pose proof (wf_merge_values (JDict right) (JDict left) Hl Hr) as Hwf.
  rewrite merge_values_dict in *. exact Hwf.
Qed.

Lemma deep_merge_wf_witness :
  wf (JDict (deep_merge [("a", JDict [("x", JInt 1)]); ("b", JInt 2)]
               [("a", JDict [("y", JInt 2)]); ("c", JNull)])) = true.
Proof.
  apply (deep_merge_wf [("a", JDict [("x", JInt 1)]); ("b", JInt 2)]
           [("a", JDict [("y", JInt 2)]); ("c", JNull)]); reflexivity.
Defined.

Lemma deep_merge_empty_right_witness :
  deep_merge [("a", JDict [("x", JInt 0)]); ("b", JBool false)] []
  = [("a", JDict [("x", JInt 0)]); ("b", JBool false)]
  /\ py_eq (JDict (deep_merge [("a", JDict [("x", JInt 0)]); ("b", JBool false)] []))
       (JDict [("a", JDict [("x", JInt 0)]); ("b", JBool false)]) = true.
Proof.
  apply (deep_merge_empty_right [("a", JDict [("x", JInt 0)]); ("b", JBool false)]).
  reflexivity.
Defined.

End deep_merge_more.

(** ** [Periodic] *)

Section periodic_facts.
Import UtilMore.

Lemma periodic_calls_app (before after : list periodic_call) (p : Periodic) :
  periodic_calls (before ++ after)%list p = periodic_calls after (periodic_calls before p).
Proof. unfold periodic_calls. apply fold_left_app. Qed.

Lemma periodic_calls_cancelled (calls : list periodic_call) (n : nat) :
  periodic_calls calls {| _task := Some TaskCancelled; tasks_created := n |}
  = {| _task := Some TaskCancelled; tasks_created := n |}.
Proof.
  induction calls as [|[|] calls IH]; [reflexivity | exact IH | exact IH].
Qed.

Lemma periodic_calls_created (calls : list periodic_call) :
  let p := periodic_calls calls new_periodic in
  (_task p = None /\ tasks_created p = 0 /\ ~ In Start calls)
  \/ (_task p <> None /\ tasks_created p = 1 /\ In Start calls).
Proof.
  induction calls as [|call calls IH] using rev_ind; [left; repeat split; tauto|].
  cbn zeta in *. rewrite periodic_calls_app.
  destruct IH as [(Ht & Hc & Hn) | (Ht & Hc & Hin)].
  - destruct call; cbn; unfold start, stop; rewrite Ht.
    + right. cbn. rewrite Hc. repeat split; [discriminate|]. apply in_or_app. right. now left.
    + left. repeat split; try assumption. intros Hin.
      apply in_app_or in Hin as [Hin|[Hin|[]]]; [contradiction | discriminate].
  - right. destruct (_task (periodic_calls calls new_periodic)) as [t|] eqn:Htask;
      [|congruence].
    destruct call; cbn; unfold start, stop; rewrite Htask; cbn;
      (repeat split; [try discriminate; congruence | assumption | apply in_or_app; now left]).
Qed.

(** X12. Whatever series of [start] and [stop] calls a [Periodic] gets, it
    creates at most one task, and exactly one when [start] was called at
    all; [started] is true from the first [start] on, also after [stop];
    and after a [stop] that follows a [start] the task stays cancelled,
    whatever calls come later: a stopped [Periodic] does not start again. *)
Theorem periodic_starts_once (calls : list periodic_call) :
  tasks_created (periodic_calls calls new_periodic) <= 1
  /\ (In Start calls ->
      tasks_created (periodic_calls calls new_periodic) = 1
      /\ started (periodic_calls calls new_periodic) = true)
  /\ (forall before later,
         calls = (before ++ Stop :: later)%list -> In Start before ->
         _task (periodic_calls calls new_periodic) = Some TaskCancelled).
Proof.
  split; [|split].
  - destruct (periodic_calls_created calls) as [(_ & -> & _) | (_ & -> & _)]; lia.
  - intros Hin.
    destruct (periodic_calls_created calls) as [(_ & _ & Hn) | (Ht & Hc & _)];
      [contradiction|].
    split; [assumption|]. unfold started.
    now destruct (_task (periodic_calls calls new_periodic)).
  - intros before later -> Hin.
    rewrite periodic_calls_app. cbn [periodic_calls fold_left].
    destruct (periodic_calls_created before) as [(_ & _ & Hn) | (Ht & Hc & _)];
      [contradiction|].
    fold (periodic_calls later (stop (periodic_calls before new_periodic))).
    unfold stop.
    destruct (_task (periodic_calls before new_periodic)) as [t|]; [|congruence].
    apply (f_equal _task (periodic_calls_cancelled later _)).
Qed.

Lemma periodic_starts_once_witness :
  (tasks_created (periodic_calls [Start; Start; Stop; Start] new_periodic) = 1
   /\ started (periodic_calls [Start; Start; Stop; Start] new_periodic) = true)
  /\ _task (periodic_calls [Start; Start; Stop; Start] new_periodic) = Some TaskCancelled.
Proof.
  destruct (periodic_starts_once [Start; Start; Stop; Start]) as (_ & Hstarted & Hstopped).
  split.
  - apply Hstarted. now left.
  - apply (Hstopped [Start; Start] [Start]); [reflexivity | now left].
Defined.

Section run_facts.
Variable name : string.
Variable func : nat -> outcome unit.

Lemma run_ticks_succ (ticks : nat) (r : periodic_run) :
  run_ticks name func (Datatypes.S ticks) r = run_tick name func (run_ticks name func ticks r).
Proof.
  revert r. induction ticks as [|ticks IH]; intros r; [reflexivity|].
  cbn [run_ticks] in *. now rewrite <- IH.
Qed.

End run_facts.

(** X13. An [Exception] of the periodic function does not end [_run]: as
    long as no call of the function ends with anything but a return or an
    [Exception], the function has been called once per turn of the loop,
    the loop goes on, and one line is logged for every call that raised,
    in the order of the calls. *)
Theorem periodic_run_survives_exceptions (name : string) (func : nat -> outcome unit)
    (ticks : nat) :
  (forall n ex, n < ticks -> func n = Raise ex -> is_Exception ex = true) ->
  func_calls (_run name func ticks) = ticks
  /\ ended (_run name func ticks) = None
  /\ logged (_run name func ticks) = flat_map (logged_for name func) (seq 0 ticks).
Proof.
  unfold _run. induction ticks as [|ticks IH]; intros Hex.
  - repeat split.
  - destruct IH as (Hcalls & Hended & Hlogged); [intros n ex Hn; apply Hex; lia|].
    rewrite run_ticks_succ. unfold run_tick. rewrite Hended, Hcalls.
    rewrite seq_S, flat_map_app. cbn [flat_map]. rewrite app_nil_r. cbn [Nat.add].
    unfold logged_for at 2.
    destruct (func ticks) as [[]|ex] eqn:Hf.
    + cbn. rewrite app_nil_r. repeat split. exact Hlogged.
    + rewrite (Hex ticks ex (Nat.lt_succ_diag_r ticks) Hf). cbn.
      repeat split. now rewrite Hlogged.
Qed.

Lemma periodic_run_survives_exceptions_witness :
  func_calls
    (_run "sweep" (fun n => if Nat.even n then Raise (Exception_ "boom") else Ok tt) 3) = 3
  /\ ended
       (_run "sweep" (fun n => if Nat.even n then Raise (Exception_ "boom") else Ok tt) 3)
     = None
  /\ logged
       (_run "sweep" (fun n => if Nat.even n then Raise (Exception_ "boom") else Ok tt) 3)
     = flat_map
         (logged_for "sweep"
            (fun n => if Nat.even n then Raise (Exception_ "boom") else Ok tt))
         (seq 0 3).
Proof.
  apply (periodic_run_survives_exceptions "sweep"
           (fun n => if Nat.even n then Raise (Exception_ "boom") else Ok tt) 3).
  intros n ex _. destruct (Nat.even n); [|discriminate].
  intros [= <-]. reflexivity.
Defined.

End periodic_facts.

(** ** More on [ArangoEntityDb.update] *)

Section ArangoEntityDb_more.
Context {S T : Type} `{Entity T}.
Variable db : AsyncArangoDB S.
Variable collection_name : string.
Variable key_of : T -> string.

(** X14. [update] returns only after the database has taken the document:
    whenever it returns, the driver has accepted the update of [to_doc(t)],
    or has answered the update with document-not-found and then accepted
    the insert of [to_doc(t)]; and what it returns is the entity it was
    given, with no more than its revision replaced by the [_rev] of the
    driver's answer. *)
Theorem update_returns_after_write (t t' : T) (s s' : S) :
  ArangoEntityDb.update db collection_name key_of t s = (Ok t', s') ->
  exists result,
    t' = ArangoEntityDb.take_revision t result
    /\ (db_update db collection_name (ArangoEntityDb.to_doc key_of t) s = (Ok result, s')
        \/ exists msg s1,
             db_update db collection_name (ArangoEntityDb.to_doc key_of t) s
             = (Raise (DocumentUpdateError 1202 msg), s1)
             /\ db_insert db collection_name (ArangoEntityDb.to_doc key_of t) s1
                = (Ok result, s')).
Proof.
  unfold ArangoEntityDb.update. unfold_coro.
  destruct (db_update db collection_name (ArangoEntityDb.to_doc key_of t) s)
    as [[result|ex] s1] eqn:Hu.
  - intros [= <- <-]. exists result. split; [reflexivity | now left].
  - destruct ex as [ | | | m | code m | | | | ]; try discriminate.
    destruct (Z.eqb_spec code 1202) as [->|Hne]; [|discriminate].
    destruct (db_insert db collection_name (ArangoEntityDb.to_doc key_of t) s1)
      as [[result|ex] s2] eqn:Hi; [|discriminate].
    intros [= <- <-]. exists result. split; [reflexivity|]. right. now exists m, s1.
Qed.

End ArangoEntityDb_more.

Lemma update_returns_after_write_witness :
  exists result,
    ConfigEntity.mk "new" InMemory.flat (Some "riii")
    = ArangoEntityDb.take_revision (ConfigEntity.mk "new" InMemory.flat None) result
    /\ (db_update InMemory.arango "configs"
          (ArangoEntityDb.to_doc ConfigEntity.id (ConfigEntity.mk "new" InMemory.flat None))
          (db InMemory.world_validated)
        = (Ok result,
           snd (ArangoEntityDb.update InMemory.arango "configs" ConfigEntity.id
                  (ConfigEntity.mk "new" InMemory.flat None) (db InMemory.world_validated)))
        \/ exists msg s1,
             db_update InMemory.arango "configs"
               (ArangoEntityDb.to_doc ConfigEntity.id
                  (ConfigEntity.mk "new" InMemory.flat None))
               (db InMemory.world_validated)
             = (Raise (DocumentUpdateError 1202 msg), s1)
             /\ db_insert InMemory.arango "configs"
                  (ArangoEntityDb.to_doc ConfigEntity.id
                     (ConfigEntity.mk "new" InMemory.flat None)) s1
                = (Ok result,
                   snd (ArangoEntityDb.update InMemory.arango "configs" ConfigEntity.id
                          (ConfigEntity.mk "new" InMemory.flat None)
                          (db InMemory.world_validated)))).
Proof.
  assert (Hupdate :
            ArangoEntityDb.update InMemory.arango "configs" ConfigEntity.id
              (ConfigEntity.mk "new" InMemory.flat None) (db InMemory.world_validated)
            = (Ok (ConfigEntity.mk "new" InMemory.flat (Some "riii")),
               snd (ArangoEntityDb.update InMemory.arango "configs" ConfigEntity.id
                      (ConfigEntity.mk "new" InMemory.flat None)
                      (db InMemory.world_validated))))
    by reflexivity.
  exact (update_returns_after_write InMemory.arango "configs" ConfigEntity.id _ _ _ _
           Hupdate).
Defined.

(** ** More on the config handler *)

Section ConfigHandlerService_more.
Context {S : Type}.
Variable self : ConfigHandlerService S.

#[local] Abbreviation model_in w := (from_kinds self (all (model_db self) (db w))).
#[local] Abbreviation updated result :=
  {| message_type := ConfigUpdated; data := id_and_revision result |}.

Lemma coerce_sections_invariant (model : Model) (items : Json) :
  forall final_config final,
    List.NoDup (keys final_config ++ keys items) ->
    coerce_sections model items final_config = Ok final ->
    keys final = (keys final_config ++ keys items)%list
    /\ (forall key, In key (keys final_config) ->
                    dict_lookup final key = dict_lookup final_config key)
    /\ (forall key value,
           dict_lookup items key = Some value ->
           dict_lookup final key =
           Some match model !! key with
                | Some kind =>
                    match check_valid kind value with
                    | Ok coerced => if truthy coerced then coerced else value
                    | Raise _ => value
                    end
                | None => value
                end).
Proof.
  induction items as [|[k0 v0] items IH]; intros acc final Hnd Hok.
  - cbn in Hok. injection Hok as <-. cbn. rewrite app_nil_r.
    repeat split; [discriminate].
  - cbn [keys map fst] in Hnd. fold (keys items) in Hnd.
    pose proof (List.NoDup_remove _ _ _ Hnd) as [Hnd' Hfresh].
    assert (Hk0 : ~ In k0 (keys acc)) by (intros Hin; apply Hfresh, in_or_app; now left).
    assert (Hstep : forall x final',
               coerce_sections model items (dict_set acc k0 x) = Ok final' ->
               keys final' = (keys acc ++ k0 :: keys items)%list
               /\ (forall key, In key (keys acc) ->
                               dict_lookup final' key = dict_lookup acc key)
               /\ dict_lookup final' k0 = Some x
               /\ (forall key value,
                      dict_lookup items key = Some value ->
                      dict_lookup final' key =
                      Some match model !! key with
                           | Some kind =>
                               match check_valid kind value with
                               | Ok coerced => if truthy coerced then coerced else value
                               | Raise _ => value
                               end
                           | None => value
                           end)).
    { intros x final' Hok'.
      destruct (IH (dict_set acc k0 x) final') as (Hkeys & Hacc & Hitems);
        [| exact Hok' |].
      - rewrite keys_dict_set_fresh by assumption. rewrite <- app_assoc. exact Hnd.
      - rewrite keys_dict_set_fresh in Hkeys, Hacc by assumption.
        rewrite <- app_assoc in Hkeys. repeat split.
        + exact Hkeys.
        + intros key Hin. rewrite Hacc by (apply in_or_app; now left).
          apply dict_lookup_set_other. intros ->. contradiction.
        + rewrite Hacc by (apply in_or_app; right; now left).
          apply dict_lookup_set_same.
        + exact Hitems. }
    cbn [coerce_sections] in Hok. cbn [keys map fst]. fold (keys items).
    assert (Hother : forall key value,
               dict_lookup ((k0, v0) :: items) key = Some value ->
               key = k0 /\ value = v0 \/ key <> k0 /\ dict_lookup items key = Some value).
    { intros key value. cbn. destruct (String.eqb_spec key k0) as [->|Hne].
      - intros [= <-]. now left.
      - intros Hl. now right. }
    destruct (model !! k0) as [kind|] eqn:Hkind.
    + destruct (check_valid kind v0) as [coerced|ex] eqn:Hcheck.
      * destruct (Hstep _ _ Hok) as (Hkeys & Hacc & Hk & Hitems).
        repeat split; [assumption | assumption |].
        intros key value Hl. destruct (Hother key value Hl) as [[-> ->] | [Hne Hl']].
        -- now rewrite Hkind, Hcheck.
        -- now apply Hitems.
      * destruct (is_Exception ex); discriminate.
    + destruct (Hstep _ _ Hok) as (Hkeys & Hacc & Hk & Hitems).
      repeat split; [assumption | assumption |].
      intros key value Hl. destruct (Hother key value Hl) as [[-> ->] | [Hne Hl']].
      * now rewrite Hkind.
      * now apply Hitems.
Qed.

(** X15. When the sections of a config pass the coercion, the coerced
    config has the keys of the submitted one in the same order, and under
    every key stands what [check_valid] of the key's kind gave when that is
    truthy, and the submitted value otherwise (no kind for the key, or
    [check_valid] gave [None] or another falsy value). *)
Theorem coerce_sections_keeps_keys (model : Model) (config final_config : Json) :
  nodup_keys (keys config) = true ->
  coerce_sections model config [] = Ok final_config ->
  keys final_config = keys config
  /\ (forall key value,
         dict_lookup config key = Some value ->
         dict_lookup final_config key =
         Some match model !! key with
              | Some kind =>
                  match check_valid kind value with
                  | Ok coerced => if truthy coerced then coerced else value
                  | Raise _ => value
                  end
              | None => value
              end).
Proof.
  intros Hnd Hok.
  destruct (coerce_sections_invariant model config [] final_config) as (Hkeys & _ & Hitems).
  - now apply nodup_keys_NoDup.
  - exact Hok.
  - split; assumption.
Qed.

Lemma coerce_and_check_model_unvalidated (cfg_id : string) (config : Json) (w : World S) :
  coerce_and_check_model self cfg_id config false w = (Ok config, w).
Proof.
  rewrite coerce_and_check_model_eq.
  destruct (get (validation_db self) cfg_id (db w)) as [v|]; [|reflexivity].
  now rewrite andb_false_r.
Qed.


(** X16. With [validate=False], [put_config] does not validate at all: no
    section is coerced, no task reaches the worker queue also when the id
    asks for external validation, and the call raises only what the store
    raises; the config goes to the store as it was submitted. *)
Theorem put_config_unvalidated (cfg : ConfigEntity.t) (w : World S) :
  coerce_and_check_model self (ConfigEntity.id cfg) (ConfigEntity.config cfg) false w
  = (Ok (ConfigEntity.config cfg), w)
  /\ task_queue (snd (put_config self cfg false w)) = task_queue w
  /\ uuid_count (snd (put_config self cfg false w)) = uuid_count w
  /\ (forall e,
         fst (put_config self cfg false w) = Raise e ->
         fst (update (cfg_db self) cfg (db w)) = Raise e).
Proof.
  assert (Hv : coerce_and_check_model self (ConfigEntity.id cfg)
                 (ConfigEntity.config cfg) false w
               = (Ok (ConfigEntity.config cfg), w)).
    by apply coerce_and_check_model_unvalidated.
  split; [exact Hv|].
  rewrite (put_config_validated self cfg false w w _ Hv).
  assert (Hcfg : ConfigEntity.mk (ConfigEntity.id cfg) (ConfigEntity.config cfg)
                   (ConfigEntity.revision cfg) = cfg) by now destruct cfg.
  rewrite Hcfg.
  destruct (get (cfg_db self) (ConfigEntity.id cfg) (db w)) as [existing|];
    [destruct (py_eq _ _); [repeat split; discriminate|]|];
    destruct (update (cfg_db self) cfg (db w)) as [[r|e] s2];
    repeat split; try discriminate; auto.
Qed.




(** X18. The event a [put_config] puts on the bus is told apart by the
    listener of the core config by its id alone: when a put returns and has
    emitted, it has emitted one event, and the listener that gets this
    event calls [exit_fn] when the id of the stored entity is the
    core-config id, and does nothing otherwise. *)
Theorem put_config_reaches_listener {L : Type} (ResotoCoreConfigId : string)
    (exit_fn : M L unit) (cfg : ConfigEntity.t) (validate : bool) (w w' : World S)
    (result : ConfigEntity.t) (l : L) :
  put_config self cfg validate w = (Ok result, w') ->
  message_bus w' <> message_bus w ->
  message_bus w' = (message_bus w ++ [updated result])%list
  /\ CoreConfigHandler.handle_events ResotoCoreConfigId exit_fn
       (CoreConfigHandler.subscribe [ConfigUpdated] [updated result]) l
     = if String.eqb (ConfigEntity.id result) ResotoCoreConfigId
       then exit_fn l else (Ok tt, l).
Proof.
  intros Hput Hbus.
  destruct (coerce_and_check_model self (ConfigEntity.id cfg) (ConfigEntity.config cfg)
              validate w) as [[coerced|e] w1] eqn:Hv.
  - destruct (coerce_and_check_model_frame self _ _ _ _ _ _ Hv) as [Hdb Hb].
    rewrite (put_config_validated self cfg validate w w1 coerced Hv) in Hput.
    assert (Hw' : w' = push_event (updated result)
                         (set_db (db w') w1)
                  /\ message_bus w' = (message_bus w ++ [updated result])%list).
    { destruct (get (cfg_db self) (ConfigEntity.id cfg) (db w)) as [existing|].
      - destruct (py_eq _ _).
        + injection Hput as <- <-. congruence.
        + destruct (update (cfg_db self) _ (db w)) as [[r|e] s2]; [|discriminate].
          injection Hput as <- <-. cbn. now rewrite Hb.
      - destruct (update (cfg_db self) _ (db w)) as [[r|e] s2]; [|discriminate].
        injection Hput as <- <-. cbn. now rewrite Hb. }
    destruct Hw' as [_ Hbus']. split; [exact Hbus'|].
    cbn [CoreConfigHandler.subscribe List.filter message_type existsb CoreMessage_eqb orb].
    rewrite (handle_events_one ResotoCoreConfigId exit_fn).
    unfold CoreConfigHandler.is_core_config_update. cbn. reflexivity.
  - rewrite (put_config_not_validated self cfg validate w w1 e Hv) in Hput. discriminate.
Qed.

End ConfigHandlerService_more.

Lemma coerce_sections_keeps_keys_witness :
  keys [("timeout", JInt 3600); ("name", JStr "core")]
  = keys [("timeout", JStr "1h"); ("name", JStr "core")]
  /\ dict_lookup [("timeout", JInt 3600); ("name", JStr "core")] "timeout"
     = Some (JInt 3600).
Proof.
  assert (Hcoerce :
            coerce_sections (list_to_map [("timeout", Examples.duration_kind "timeout")])
              [("timeout", JStr "1h"); ("name", JStr "core")] []
            = Ok [("timeout", JInt 3600); ("name", JStr "core")])
    by (vm_compute; reflexivity).
  destruct (coerce_sections_keeps_keys
              (list_to_map [("timeout", Examples.duration_kind "timeout")])
              [("timeout", JStr "1h"); ("name", JStr "core")]
              [("timeout", JInt 3600); ("name", JStr "core")]
              eq_refl Hcoerce) as [Hkeys Hvalues].
  split; [exact Hkeys|].
  pose proof (Hvalues "timeout" (JStr "1h") eq_refl) as Hvalue.
  rewrite Hvalue. vm_compute. reflexivity.
Defined.

Lemma put_config_reaches_listener_witness :
  message_bus
    (snd (put_config InMemory.accepting (ConfigEntity.mk InMemory.core_id InMemory.flat None)
            true (InMemory.world InMemory.empty)))
  = [{| message_type := ConfigUpdated;
        data := id_and_revision (ConfigEntity.mk InMemory.core_id InMemory.flat (Some "ri")) |}]
  /\ CoreConfigHandler.handle_events InMemory.core_id
       (CoreConfigHandler.default_exit_fn (S := unit))
       (CoreConfigHandler.subscribe [ConfigUpdated]
          [{| message_type := ConfigUpdated;
              data := id_and_revision
                        (ConfigEntity.mk InMemory.core_id InMemory.flat (Some "ri")) |}]) tt
     = (if String.eqb InMemory.core_id InMemory.core_id
        then CoreConfigHandler.default_exit_fn tt else (Ok tt, tt)).
Proof.
  assert (Hput : put_config InMemory.accepting
                   (ConfigEntity.mk InMemory.core_id InMemory.flat None) true
                   (InMemory.world InMemory.empty)
                 = (Ok (ConfigEntity.mk InMemory.core_id InMemory.flat (Some "ri")),
                    snd (put_config InMemory.accepting
                           (ConfigEntity.mk InMemory.core_id InMemory.flat None) true
                           (InMemory.world InMemory.empty))))
    by reflexivity.
  assert (Hbus : message_bus
                   (snd (put_config InMemory.accepting
                           (ConfigEntity.mk InMemory.core_id InMemory.flat None) true
                           (InMemory.world InMemory.empty)))
                 <> message_bus (InMemory.world InMemory.empty))
    by (vm_compute; discriminate).
  exact (put_config_reaches_listener InMemory.accepting InMemory.core_id
           CoreConfigHandler.default_exit_fn _ true _ _ _ tt Hput Hbus).
Defined.

(** ** Keeping the core config up to date, and validating it *)

Section update_config_facts.
Import CoreConfigHandlerMore.
Context {S : Type}.
Variable config_handler : ConfigHandlerService S.
Variable ResotoCoreConfigId : string.
Variable empty : Json.

#[local] Abbreviation update_config' :=
  (update_config config_handler ResotoCoreConfigId empty).

(** what the [try] of [__update_config] makes of the outcome of the put *)
Lemma update_config_eq (w : World S) :
  update_config' w =
  let contained (r : outcome ConfigEntity.t * World S) : outcome unit * World S :=
    match r with
    | (Ok _, w1) => (Ok tt, w1)
    | (Raise e, w1) => if is_Exception e then (Ok tt, w1) else (Raise e, w1)
    end in
  match get (cfg_db config_handler) ResotoCoreConfigId (db w) with
  | Some existing =>
      if py_eq (JDict (deep_merge empty (ConfigEntity.config existing)))
           (JDict (ConfigEntity.config existing))
      then (Ok tt, w)
      else contained (put_config config_handler
                        (ConfigEntity.mk ResotoCoreConfigId
                           (deep_merge empty (ConfigEntity.config existing)) None)
                        false w)
  | None =>
      contained (put_config config_handler
                   (ConfigEntity.mk ResotoCoreConfigId empty None) false w)
  end.
Proof.
  unfold update_config, get_config. unfold_coro. cbn zeta.
  destruct (get (cfg_db config_handler) ResotoCoreConfigId (db w)) as [existing|].
  - unfold py_ne. destruct (py_eq _ _); cbn [negb]; [reflexivity|].
    destruct (put_config config_handler _ false w) as [[r|e] w1]; [reflexivity|].
    now destruct (is_Exception e).
  - destruct (put_config config_handler _ false w) as [[r|e] w1]; [reflexivity|].
    now destruct (is_Exception e).
Qed.


End update_config_facts.


Section validate_config_facts.
Import CoreConfigHandlerMore UtilMore.
Variable ResotoCoreRoot : string.
Variable read_editable_config : Json -> outcome unit.
Variable validate_config : Json -> json.
Variable safe_dump : json -> string.

#[local] Abbreviation validate_task' :=
  (validate_task ResotoCoreRoot read_editable_config validate_config safe_dump).
#[local] Abbreviation validate_tasks' :=
  (validate_tasks ResotoCoreRoot read_editable_config validate_config safe_dump).

Hypothesis read_raises_Exception :
  forall config e, read_editable_config config = Raise e -> is_Exception e = true.

Lemma validate_task_reply (task : WorkerTask) (replies : list reply) :
  exists r,
    validate_task' task replies = (Ok tt, (replies ++ [r])%list)
    /\ reply_task_id r = task_id task
    /\ (r = Acknowledged worker_id (task_id task) <->
        exists config,
          value_in_path (JDict (task_data task)) (inl ["config"; ResotoCoreRoot])
          = JDict config
          /\ read_editable_config config = Ok tt
          /\ truthy (validate_config config) = false).
Proof.
  unfold validate_task, error_task, acknowledge_task. unfold_coro.
  destruct (value_in_path (JDict (task_data task)) (inl ["config"; ResotoCoreRoot]))
    as [ | | | | |config] eqn:Hpath;
    try (eexists; split; [reflexivity|]; split; [reflexivity|];
         split; [discriminate | intros (c & Hc & _); discriminate]).
  destruct (read_editable_config config) as [[]|e] eqn:Hread.
  - destruct (truthy (validate_config config)) eqn:Herrors.
    + eexists. split; [reflexivity|]. split; [reflexivity|].
      split; [discriminate|]. intros (c & [= <-] & _ & Hc). congruence.
    + eexists. split; [reflexivity|]. split; [reflexivity|].
      split; [|reflexivity]. intros _. now exists config.
  - rewrite (read_raises_Exception config e Hread).
    eexists. split; [reflexivity|]. split; [reflexivity|].
    split; [discriminate|]. intros (c & [= <-] & Hc & _). congruence.
Qed.

(** X20. The validator of the core config answers every task it is handed
    exactly once and in the order of the tasks, as long as reading the
    config raises nothing but [Exception]s; and it acknowledges a task only
    when the payload holds a dict under [config], the core root, that reads
    as an editable config and has no validation errors: every other task is
    answered with an error. *)
Theorem validate_tasks_one_reply_each (tasks : list WorkerTask) (replies : list reply) :
  exists answers,
    validate_tasks' tasks replies = (Ok tt, (replies ++ answers)%list)
    /\ map reply_task_id answers = map task_id tasks
    /\ (forall task,
           In (Acknowledged worker_id (task_id task)) answers ->
           exists task' config,
             In task' tasks /\ task_id task' = task_id task
             /\ value_in_path (JDict (task_data task')) (inl ["config"; ResotoCoreRoot])
                = JDict config
             /\ read_editable_config config = Ok tt
             /\ truthy (validate_config config) = false).
Proof.
  revert replies. induction tasks as [|task tasks IH]; intros replies.
  - exists []. cbn. rewrite app_nil_r. repeat split. intros task [].
  - destruct (validate_task_reply task replies) as (r & Hr & Hid & Hack).
    destruct (IH (replies ++ [r])%list) as (answers & Hrest & Hids & Hacks).
    exists (r :: answers). cbn [validate_tasks]. unfold bind. rewrite Hr, Hrest.
    rewrite <- app_assoc. repeat split.
    + cbn. now rewrite Hid, Hids.
    + intros task0 [Hin|Hin].
      * assert (Hsame : task_id task0 = task_id task).
        { rewrite <- Hid, Hin. reflexivity. }
        rewrite Hsame in Hin. apply Hack in Hin as (config & Hc).
        exists task, config. split; [now left|]. split; [now symmetry|]. exact Hc.
      * destruct (Hacks task0 Hin) as (task' & config & Hin' & Hc).
        exists task', config. split; [now right | exact Hc].
Qed.

(** X21. The task [acknowledge_config_change] builds for a config carries
    the config under [config] in its payload, so the validator of the core
    config looks at the section of the config under the core root and at
    nothing else of it. *)
Theorem validator_reads_core_section (uid cfg_id : string) (config : Json) :
  value_in_path (JDict (task_data (validate_config_task uid cfg_id config)))
    (inl ["config"; ResotoCoreRoot])
  = dict_get config ResotoCoreRoot
  /\ forall other : Json,
       dict_get other ResotoCoreRoot = dict_get config ResotoCoreRoot ->
       forall replies,
         validate_task' (validate_config_task uid cfg_id other) replies
         = validate_task' (validate_config_task uid cfg_id config) replies.
Proof.
  assert (Hread : forall c : Json,
             value_in_path (JDict (task_data (validate_config_task uid cfg_id c)))
               (inl ["config"; ResotoCoreRoot])
             = dict_get c ResotoCoreRoot).
  { intros c. unfold value_in_path, dict_get. cbn.
    now destruct (dict_lookup c ResotoCoreRoot). }
  split; [apply Hread|].
  intros other Hsame replies. unfold validate_task. now rewrite !Hread, Hsame.
Qed.

End validate_config_facts.

Lemma validate_tasks_one_reply_each_witness :
  exists answers,
    CoreConfigHandlerMore.validate_tasks "resotocore" Examples.reads_all Examples.wants_port
      Examples.dump_keys
      [validate_config_task "t1" "resoto.core" [("resotocore", JDict [("port", JInt 1)])];
       validate_config_task "t2" "resoto.core" [("resotocore", JDict [])];
       validate_config_task "t3" "resoto.core" [("other", JInt 1)]] []
    = (Ok tt, ([] ++ answers)%list)
    /\ map CoreConfigHandlerMore.reply_task_id answers = ["t1"; "t2"; "t3"].
Proof.
  destruct (validate_tasks_one_reply_each "resotocore" Examples.reads_all
              Examples.wants_port Examples.dump_keys
              ltac:(intros config e; discriminate)
              [validate_config_task "t1" "resoto.core"
                 [("resotocore", JDict [("port", JInt 1)])];
               validate_config_task "t2" "resoto.core" [("resotocore", JDict [])];
               validate_config_task "t3" "resoto.core" [("other", JInt 1)]] [])
    as (answers & Hrun & Hids & _).
  exists answers. split; assumption.
Defined.

Lemma validator_reads_core_section_witness :
  CoreConfigHandlerMore.validate_task "resotocore" Examples.reads_all Examples.wants_port
    Examples.dump_keys
    (validate_config_task "t1" "resoto.core"
       [("resotocore", JDict [("port", JInt 1)]); ("extra", JInt 7)]) []
  = CoreConfigHandlerMore.validate_task "resotocore" Examples.reads_all Examples.wants_port
      Examples.dump_keys
      (validate_config_task "t1" "resoto.core" [("resotocore", JDict [("port", JInt 1)])]) [].
Proof.
  apply (proj2 (validator_reads_core_section "resotocore" Examples.reads_all
                  Examples.wants_port Examples.dump_keys "t1" "resoto.core"
                  [("resotocore", JDict [("port", JInt 1)])])).
  reflexivity.
Defined.

(** ** More on the restart loop *)

Section run_more.
Variable run_process : nat -> outcome unit.

Lemma run_restarting (turns : nat) (reasons : nat -> string) :
  (forall n, n < turns -> run_process n = Raise (RestartService (reasons n))) ->
  Main.run run_process turns =
  {| Main.entered := turns;
     Main.printed := map (fun n => Main.restart_banner (reasons n)) (seq 0 turns);
     Main.state := Main.Looping |}.
Proof.
  unfold Main.run. induction turns as [|turns IH]; intros Hrestart; [reflexivity|].
  rewrite run_from_succ, IH by (intros n Hn; apply Hrestart; lia).
  rewrite (run_turn_restart run_process _ (reasons turns)); [|reflexivity|].
  - cbn [Main.entered Main.printed]. now rewrite seq_S, map_app.
  - cbn. apply Hrestart. lia.
Qed.

Lemma run_from_ended (turns : nat) (sv : Main.supervisor) :
  Main.state sv <> Main.Looping -> Main.run_from run_process turns sv = sv.
Proof.
  revert sv. induction turns as [|turns IH]; intros sv Hended; [reflexivity|].
  cbn [Main.run_from]. unfold Main.run_turn at 1.
  destruct (Main.state sv) eqn:Hs; [congruence | |]; apply IH; congruence.
Qed.

Lemma run_from_add (a b : nat) (sv : Main.supervisor) :
  Main.run_from run_process (a + b) sv
  = Main.run_from run_process b (Main.run_from run_process a sv).
Proof.
  revert sv. induction a as [|a IH]; intros sv; [reflexivity|]. cbn. apply IH.
Qed.

(** X22. [run] enters [run_process] again after every [RestartService] and
    stops at the first run that ends otherwise: when the first [k] runs end
    with [RestartService] and the next one returns, or raises something
    else, [run_process] has been entered [k + 1] times, one banner has been
    printed per restart, in order, and [run] has returned, or the other
    exception has left it, however long one waits. *)
Theorem run_restarts_until_done (k more : nat) (reasons : nat -> string) :
  (forall n, n < k -> run_process n = Raise (RestartService (reasons n))) ->
  (forall reason, run_process k <> Raise (RestartService reason)) ->
  Main.run run_process (Datatypes.S k + more) =
  {| Main.entered := Datatypes.S k;
     Main.printed := map (fun n => Main.restart_banner (reasons n)) (seq 0 k);
     Main.state := match run_process k with
                   | Ok _ => Main.Returned
                   | Raise e => Main.Propagated e
                   end |}.
Proof.
  intros Hrestart Hlast. unfold Main.run.
  rewrite run_from_add, run_from_succ.
  fold (Main.run run_process k). rewrite (run_restarting k reasons Hrestart).
  unfold Main.run_turn. cbn [Main.state Main.entered Main.printed].
  destruct (run_process k) as [[]|e] eqn:Hk.
  - apply run_from_ended. discriminate.
  - destruct e; try (apply run_from_ended; discriminate).
    now destruct (Hlast reason).
Qed.

End run_more.

Lemma run_restarts_until_done_witness :
  Main.run InMemory.restart_once (2 + 5) =
  {| Main.entered := 2;
     Main.printed := [Main.restart_banner "resotocore config changed."];
     Main.state := Main.Returned |}.
Proof.
  apply (run_restarts_until_done InMemory.restart_once 1 5
           (fun _ => "resotocore config changed.")).
  - intros n Hn. destruct n; [reflexivity | lia].
  - intros reason. discriminate.
Defined.

Lemma put_config_unvalidated_witness :
  fst (put_config InMemory.rejecting
         (ConfigEntity.mk "cfg" [("a", JInt 2)] (Some "stale")) false
         InMemory.world_validated)
  = Raise (OptimisticLockingFailed "cfg" (DocumentRevisionError "conflict"))
  /\ fst (update (cfg_db InMemory.rejecting)
            (ConfigEntity.mk "cfg" [("a", JInt 2)] (Some "stale"))
            (db InMemory.world_validated))
     = Raise (OptimisticLockingFailed "cfg" (DocumentRevisionError "conflict"))
  /\ task_queue
       (snd (put_config InMemory.rejecting
               (ConfigEntity.mk "cfg" [("a", JInt 2)] (Some "stale")) false
               InMemory.world_validated)) = [].
Proof.
  destruct (put_config_unvalidated InMemory.rejecting
              (ConfigEntity.mk "cfg" [("a", JInt 2)] (Some "stale"))
              InMemory.world_validated) as (_ & Hqueue & _ & Hraise).
  assert (Hput : fst (put_config InMemory.rejecting
                        (ConfigEntity.mk "cfg" [("a", JInt 2)] (Some "stale")) false
                        InMemory.world_validated)
                 = Raise (OptimisticLockingFailed "cfg" (DocumentRevisionError "conflict")))
    by reflexivity.
  split; [exact Hput|]. split; [exact (Hraise _ Hput) | exact Hqueue].
Defined.

Lemma dict_lookup_In (d : Json) (k : string) (v : json) :
  dict_lookup d k = Some v -> In (k, v) d.
Proof.
  induction d as [|[k0 v0] d IH]; simpl; [discriminate|].
  destruct (String.eqb_spec k k0) as [->|Hne].
  - intros [= <-]. now left.
  - intros Hl. right. now apply IH.
Qed.

(** Equal dicts hold equal values under every key of the first. *)
Lemma py_eq_dict_lookup (xs ys : Json) (k : string) (v : json) :
  py_eq (JDict xs) (JDict ys) = true ->
  In (k, v) xs ->
  exists w, dict_lookup ys k = Some w /\ py_eq v w = true.
Proof.
  cbn [py_eq]. intros Heq Hin. apply andb_prop in Heq as [_ Hgo].
  induction xs as [|kv xs IH]; [destruct Hin|].
  apply andb_prop in Hgo as [Hkv Hgo].
  destruct Hin as [->|Hin]; [|now apply IH].
  cbn [fst snd] in Hkv. destruct (dict_lookup ys k) as [w|]; [|discriminate].
  now exists w.
Qed.

Section update_config_defaults.
Import CoreConfigHandlerMore.
Context {S : Type}.
Variable config_handler : ConfigHandlerService S.
Variable ResotoCoreConfigId : string.
Variable empty : Json.

(** X23. [__update_config] merges the stored core config into the defaults
    with [deep_merge], so a stored value that is falsy and no dict ([False],
    [0], an empty string or list, [None]) does not stand against a default
    under the same key: when the two differ, the config that
    [__update_config] hands to [put_config] holds the default under that
    key, and the put is made. *)
Theorem update_config_defaults_win (w : World S) (existing : ConfigEntity.t)
    (key : string) (default stored : json) :
  get (cfg_db config_handler) ResotoCoreConfigId (db w) = Some existing ->
  dict_lookup empty key = Some default ->
  dict_lookup (ConfigEntity.config existing) key = Some stored ->
  is_dict stored = false -> truthy stored = false ->
  py_eq default stored = false ->
  dict_lookup (deep_merge empty (ConfigEntity.config existing)) key = Some default
  /\ snd (update_config config_handler ResotoCoreConfigId empty w)
     = snd (put_config config_handler
              (ConfigEntity.mk ResotoCoreConfigId
                 (deep_merge empty (ConfigEntity.config existing)) None) false w).
Proof.
  intros Hget Hdefault Hstored Hdict Hfalsy Hdiff.
  assert (Hmerged : dict_lookup (deep_merge empty (ConfigEntity.config existing)) key
                    = Some default).
  { apply deep_merge_left_wins; [assumption | |];
      unfold dict_get; now rewrite Hstored. }
  split; [exact Hmerged|].
  rewrite update_config_eq. cbn zeta. rewrite Hget.
  destruct (py_eq (JDict (deep_merge empty (ConfigEntity.config existing)))
              (JDict (ConfigEntity.config existing))) eqn:Heq.
  - destruct (py_eq_dict_lookup _ _ key default Heq (dict_lookup_In _ _ _ Hmerged))
      as (w' & Hw' & Hsame).
    congruence.
  - destruct (put_config config_handler _ false w) as [[r|e] w1]; [reflexivity|].
    now destruct (is_Exception e).
Qed.

End update_config_defaults.

Lemma update_config_defaults_win_witness :
  dict_lookup (deep_merge ExamplesCore.defaults ExamplesCore.stored) "analytics"
  = Some (JBool true)
  /\ snd (CoreConfigHandlerMore.update_config InMemory.accepting "resoto.core"
            ExamplesCore.defaults ExamplesCore.world_stored)
     = snd (put_config InMemory.accepting
              (ConfigEntity.mk "resoto.core"
                 (deep_merge ExamplesCore.defaults ExamplesCore.stored) None)
              false ExamplesCore.world_stored).
Proof.
  exact (update_config_defaults_win InMemory.accepting "resoto.core" ExamplesCore.defaults
           ExamplesCore.world_stored
           (ConfigEntity.mk "resoto.core" ExamplesCore.stored (Some "ri"))
           "analytics" (JBool true) (JBool false)
           eq_refl eq_refl eq_refl eq_refl eq_refl eq_refl).
Defined.
